(** * A shallow embedding of [server.py]

    [server.py] is an aiohttp application over a PostgreSQL store: two
    Gino models ([User], [Advert]) that share the [BaseModel] mixin, one
    class-based view per resource, two raw listing views, and the route
    table.

    The embedding follows the source top to bottom.  What the source
    borrows from its libraries is modelled as far as the source relies on
    it:

    - parsed JSON values ([json]); a request body either parses or not;
    - the Python builtins the handlers call: [int] on a path segment,
      [str.encode], [hashlib.md5 ... hexdigest], [datetime.isoformat];
    - the store: one list of rows per table, the two id sequences, the
      primary keys, the unique constraints on [username] and [email] and
      the foreign key of [Advert.user_id];
    - exceptions: a computation returns a value or raises, and threads
      the store ([M]);
    - the web layer: an HTTP exception raised by a handler becomes the
      response with its status, any other exception is answered by the
      server's fallback (500).

    Requests are served one after the other; strings are byte strings
    holding UTF-8 text; JSON numbers are integers; capacity limits of the
    store (column widths, integer width) and connection failures are not
    part of the model. *)

From Stdlib Require Import ZArith String Ascii List Lia Bool Permutation.
From Stdlib Require Import DecimalString.
Import ListNotations.

Local Open Scope string_scope.
Local Open Scope list_scope.
Local Open Scope Z_scope.

(** ** Exceptions and computations *)

(** The exceptions that can travel through the handlers.  The first two
    are aiohttp's HTTP exceptions raised by the source itself; the others
    come from the builtins, the ORM layer and the database driver. *)
Inductive exn : Type :=
  | HTTPNotFound
  | HTTPBadRequest
  | KeyError (key : string)
  | TypeError
  | AttributeError
  | ValueError
  | JSONDecodeError
  | DataError
  | UniqueViolationError
  | ForeignKeyViolationError
  | NotNullViolationError.

Inductive result (A : Type) : Type :=
  | Ok (a : A)
  | Raise (e : exn).
Arguments Ok {A} a.
Arguments Raise {A} e.

Definition exn_eq_dec (e1 e2 : exn) : {e1 = e2} + {e1 <> e2}.
Proof. decide equality; apply string_dec. Defined.

Definition is_http_exn (e : exn) : bool :=
  match e with
  | HTTPNotFound | HTTPBadRequest => true
  | _ => false
  end.

(** Status carried by an HTTP exception. *)
Definition status_of_exn (e : exn) : option Z :=
  match e with
  | HTTPNotFound => Some 404
  | HTTPBadRequest => Some 400
  | _ => None
  end.

(** ** JSON values *)

#[warnings="-register-all"]
Inductive json : Type :=
  | JNull
  | JBool (b : bool)
  | JInt (n : Z)
  | JStr (s : string)
  | JList (l : list json)
  | JDict (d : list (string * json)).

(** A Python [dict] with string keys, in insertion order.  A lookup
    finds the first binding of the key. *)
Definition pydict : Type := list (string * json).

Fixpoint dict_get (k : string) (d : pydict) : option json :=
  match d with
  | [] => None
  | (k', v) :: d' => if String.eqb k k' then Some v else dict_get k d'
  end.

(** [d[k] = v]: replaces the binding in place, or appends a new one. *)
Fixpoint dict_set (k : string) (v : json) (d : pydict) : pydict :=
  match d with
  | [] => [(k, v)]
  | (k', v') :: d' =>
      if String.eqb k k' then (k, v) :: d' else (k', v') :: dict_set k v d'
  end.

(** [d[k]], raising [KeyError] when the key is absent. *)
Definition dict_item (k : string) (d : pydict) : result json :=
  match dict_get k d with
  | Some v => Ok v
  | None => Raise (KeyError k)
  end.

(** ** Python builtins used by the handlers *)

(** *** [str.encode]

    A [str] is held as the bytes of its UTF-8 encoding, so [encode()]
    (default codec UTF-8) yields those bytes. *)
Definition bytes : Type := list Z.

Definition str_encode (s : string) : bytes :=
  map (fun c => Z.of_N (N_of_ascii c)) (list_ascii_of_string s).

(** *** [hashlib.md5(data).hexdigest()] (RFC 1321) *)
Module MD5.

Definition w32 (x : Z) : Z := x mod 2 ^ 32.

Definition add32 (x y : Z) : Z := w32 (x + y).

Definition not32 (x : Z) : Z := 2 ^ 32 - 1 - x.

Definition rotl32 (x : Z) (c : Z) : Z :=
  Z.lor (w32 (Z.shiftl x c)) (Z.shiftr x (32 - c)).

Definition shifts : list Z :=
  [ 7; 12; 17; 22; 7; 12; 17; 22; 7; 12; 17; 22; 7; 12; 17; 22;
    5; 9; 14; 20; 5; 9; 14; 20; 5; 9; 14; 20; 5; 9; 14; 20;
    4; 11; 16; 23; 4; 11; 16; 23; 4; 11; 16; 23; 4; 11; 16; 23;
    6; 10; 15; 21; 6; 10; 15; 21; 6; 10; 15; 21; 6; 10; 15; 21 ].

Definition K : list Z :=
  [ 0xd76aa478; 0xe8c7b756; 0x242070db; 0xc1bdceee;
    0xf57c0faf; 0x4787c62a; 0xa8304613; 0xfd469501;
    0x698098d8; 0x8b44f7af; 0xffff5bb1; 0x895cd7be;
    0x6b901122; 0xfd987193; 0xa679438e; 0x49b40821;
    0xf61e2562; 0xc040b340; 0x265e5a51; 0xe9b6c7aa;
    0xd62f105d; 0x02441453; 0xd8a1e681; 0xe7d3fbc8;
    0x21e1cde6; 0xc33707d6; 0xf4d50d87; 0x455a14ed;
    0xa9e3e905; 0xfcefa3f8; 0x676f02d9; 0x8d2a4c8a;
    0xfffa3942; 0x8771f681; 0x6d9d6122; 0xfde5380c;
    0xa4beea44; 0x4bdecfa9; 0xf6bb4b60; 0xbebfbc70;
    0x289b7ec6; 0xeaa127fa; 0xd4ef3085; 0x04881d05;
    0xd9d4d039; 0xe6db99e5; 0x1fa27cf8; 0xc4ac5665;
    0xf4292244; 0x432aff97; 0xab9423a7; 0xfc93a039;
    0x655b59c3; 0x8f0ccc92; 0xffeff47d; 0x85845dd1;
    0x6fa87e4f; 0xfe2ce6e0; 0xa3014314; 0x4e0811a1;
    0xf7537e82; 0xbd3af235; 0x2ad7d2bb; 0xeb86d391 ].

Definition nthZ (l : list Z) (i : Z) : Z := nth (Z.to_nat i) l 0.

(** Little-endian bytes of an integer, [n] of them. *)
Fixpoint le_bytes (n : nat) (x : Z) : bytes :=
  match n with
  | O => []
  | S n' => x mod 256 :: le_bytes n' (x / 256)
  end.

Fixpoint of_le_bytes (bs : bytes) : Z :=
  match bs with
  | [] => 0
  | b :: bs' => b + 256 * of_le_bytes bs'
  end.

(** The message followed by 0x80, zeros up to 56 modulo 64, and the bit
    length on 64 bits. *)
Definition pad (msg : bytes) : bytes :=
  let len := Z.of_nat (length msg) in
  let zeros := Z.to_nat ((55 - len) mod 64) in
  msg ++ [128] ++ repeat 0 zeros ++ le_bytes 8 ((8 * len) mod 2 ^ 64).

(** Splits into groups of [n] elements; [fuel] bounds the number of
    groups. *)
Fixpoint chunks {A} (fuel n : nat) (l : list A) : list (list A) :=
  match fuel with
  | O => []
  | S fuel' =>
      match l with
      | [] => []
      | _ => firstn n l :: chunks fuel' n (skipn n l)
      end
  end.

Definition words_of_block (block : bytes) : list Z :=
  map of_le_bytes (chunks 16 4 block).

Record state := St { sa : Z; sb : Z; sc : Z; sd : Z }.

Definition init : state :=
  St 0x67452301 0xefcdab89 0x98badcfe 0x10325476.

Definition round (M : list Z) (s : state) (i : Z) : state :=
  let '(St A B C D) := s in
  let '(F, g) :=
    if i <? 16 then (Z.lor (Z.land B C) (Z.land (not32 B) D), i)
    else if i <? 32 then
      (Z.lor (Z.land D B) (Z.land (not32 D) C), (5 * i + 1) mod 16)
    else if i <? 48 then (Z.lxor (Z.lxor B C) D, (3 * i + 5) mod 16)
    else (Z.lxor C (Z.lor B (not32 D)), (7 * i) mod 16) in
  let F' := add32 (add32 (add32 F A) (nthZ K i)) (nthZ M g) in
  St D (add32 B (rotl32 F' (nthZ shifts i))) B C.

Definition process_block (s : state) (block : bytes) : state :=
  let M := words_of_block block in
  let s' := fold_left (round M) (map Z.of_nat (seq 0 64)) s in
  St (add32 (sa s) (sa s')) (add32 (sb s) (sb s'))
     (add32 (sc s) (sc s')) (add32 (sd s) (sd s')).

Definition digest (msg : bytes) : bytes :=
  let padded := pad msg in
  let s := fold_left process_block (chunks (length padded) 64 padded) init in
  le_bytes 4 (sa s) ++ le_bytes 4 (sb s) ++ le_bytes 4 (sc s)
    ++ le_bytes 4 (sd s).

Definition hex_digit (x : Z) : ascii :=
  nth (Z.to_nat x) (list_ascii_of_string "0123456789abcdef") "0"%char.

Fixpoint hex_of_bytes (bs : bytes) : string :=
  match bs with
  | [] => ""
  | b :: bs' =>
      String (hex_digit (b / 16 mod 16))
        (String (hex_digit (b mod 16)) (hex_of_bytes bs'))
  end.

Definition hexdigest (msg : bytes) : string := hex_of_bytes (digest msg).

End MD5.

(** *** [int(s)] on a [str]

    Surrounding whitespace is dropped, a sign is allowed, and the digits
    may be grouped by single underscores. *)
Definition is_digit (c : ascii) : bool :=
  let n := Z.of_N (N_of_ascii c) in (48 <=? n) && (n <=? 57).

Definition is_space (c : ascii) : bool :=
  let n := Z.of_N (N_of_ascii c) in
  ((9 <=? n) && (n <=? 13)) || ((28 <=? n) && (n <=? 32)).

Fixpoint lstrip (s : string) : string :=
  match s with
  | String c s' => if is_space c then lstrip s' else s
  | EmptyString => EmptyString
  end.

Fixpoint string_rev (s acc : string) : string :=
  match s with
  | String c s' => string_rev s' (String c acc)
  | EmptyString => acc
  end.

Definition strip (s : string) : string :=
  string_rev (lstrip (string_rev (lstrip s) "")) "".

(** The digits of a literal without its underscores; [None] when the
    literal is empty, has a character that is neither, or an underscore
    that is not between two digits. *)
Fixpoint int_digits (after_digit : bool) (s : string) : option string :=
  match s with
  | EmptyString => if after_digit then Some EmptyString else None
  | String c s' =>
      if is_digit c then option_map (String c) (int_digits true s')
      else if (Ascii.eqb c "_" && after_digit)%bool then
        match s' with
        | String c' _ => if is_digit c' then int_digits false s' else None
        | EmptyString => None
        end
      else None
  end.

Definition digits_value (ds : string) : option Z :=
  option_map Z.of_uint (NilEmpty.uint_of_string ds).

Definition py_int (s : string) : result Z :=
  let body := strip s in
  let '(negative, lit) :=
    match body with
    | String c r =>
        if Ascii.eqb c "-" then (true, r)
        else if Ascii.eqb c "+" then (false, r)
        else (false, body)
    | EmptyString => (false, body)
    end in
  match int_digits false lit with
  | Some ds =>
      match digits_value ds with
      | Some n => Ok (if negative then - n else n)
      | None => Raise ValueError
      end
  | None => Raise ValueError
  end.

(** *** [datetime] and [datetime.isoformat] *)
Record datetime := mkDatetime
  { year : Z; month : Z; day : Z;
    hour : Z; minute : Z; second : Z; microsecond : Z }.

Definition digit_char (d : Z) : ascii :=
  ascii_of_N (Z.to_N (48 + d mod 10)).

(** [n] in decimal on [w] digits, zero padded. *)
Fixpoint zfill (w : nat) (n : Z) (acc : string) : string :=
  match w with
  | O => acc
  | S w' => zfill w' (n / 10) (String (digit_char n) acc)
  end.

(** [YYYY-MM-DDTHH:MM:SS], followed by [.ffffff] when the microseconds
    are not zero. *)
Definition isoformat (t : datetime) : string :=
  let frac :=
    if Z.eqb (microsecond t) 0 then EmptyString
    else String "." (zfill 6 (microsecond t) EmptyString) in
  zfill 4 (year t) (String "-" (zfill 2 (month t) (String "-"
    (zfill 2 (day t) (String "T" (zfill 2 (hour t) (String ":"
      (zfill 2 (minute t) (String ":" (zfill 2 (second t) frac)))))))))).

(** ** The store *)

(** A row of table [user]; an instance of the model class [User]. *)
Record User := mkUser
  { User_id : Z;
    User_username : option string;
    User_email : option string;
    User_password : option string }.

(** A row of table [advert]; an instance of the model class [Advert]. *)
Record Advert := mkAdvert
  { Advert_id : Z;
    Advert_title : option string;
    Advert_text : option string;
    Advert_timestamp : option string;
    Advert_user_id : option Z }.

(** The database: the rows of both tables, in the order a sequential
    scan returns them, and the next value of each [id] sequence. *)
Record store := mkStore
  { user_table : list User;
    advert_table : list Advert;
    user_id_seq : Z;
    advert_id_seq : Z }.

(** The database right after [create_all] on an empty schema. *)
Definition empty_store : store := mkStore [] [] 1 1.

(** A computation reads and updates the store and returns or raises. *)
Definition M (A : Type) : Type := store -> result A * store.

Definition ret {A} (a : A) : M A := fun st => (Ok a, st).

Definition raise {A} (e : exn) : M A := fun st => (Raise e, st).

Definition lift {A} (r : result A) : M A := fun st => (r, st).

Definition bind {A B} (c : M A) (k : A -> M B) : M B :=
  fun st =>
    match c st with
    | (Ok a, st') => k a st'
    | (Raise e, st') => (Raise e, st')
    end.

(** [try: c except e: h] *)
Definition try_except {A} (c : M A) (e : exn) (h : M A) : M A :=
  fun st =>
    match c st with
    | (Raise e', st') => if exn_eq_dec e' e then h st' else (Raise e', st')
    | r => r
    end.

Declare Scope M_scope.
Delimit Scope M_scope with M.
Notation "x <- c ;; k" := (bind c (fun x => k))
  (at level 61, c at next level, right associativity) : M_scope.
Notation "c ;;; k" := (bind c (fun _ => k))
  (at level 61, right associativity) : M_scope.

(** ** The ORM layer (Gino's [db.Model]) *)

(** What a model class inherits from [db.Model]: [cls.get(id)],
    [instance.delete()] and [cls.create] with keyword arguments. *)
Class Model (R : Type) : Type :=
  { Model_get : Z -> M (option R);
    Model_delete : R -> M unit;
    Model_create : pydict -> M R }.

(** Values bound to a column: [None] (NULL) or a value of the column's
    type. *)
Definition as_integer (v : json) : result (option Z) :=
  match v with
  | JNull => Ok None
  | JInt n => Ok (Some n)
  | JBool b => Ok (Some (if b then 1 else 0))
  | _ => Raise DataError
  end.

Definition as_string (v : json) : result (option string) :=
  match v with
  | JNull => Ok None
  | JStr s => Ok (Some s)
  | _ => Raise DataError
  end.

(** The constructor of a model instance accepts the columns only. *)
Fixpoint check_keys (columns : list string) (kwargs : pydict) : result unit :=
  match kwargs with
  | [] => Ok tt
  | (k, _) :: rest =>
      if existsb (String.eqb k) columns then check_keys columns rest
      else Raise (KeyError k)
  end.

(** The value given for column [k]: [None] when [kwargs] does not mention
    the column, so that its default applies. *)
Definition column_value {T} (coerce : json -> result (option T))
    (k : string) (kwargs : pydict) : result (option (option T)) :=
  match dict_get k kwargs with
  | None => Ok None
  | Some v =>
      match coerce v with
      | Ok x => Ok (Some x)
      | Raise e => Raise e
      end
  end.

(** An omitted column without a default is NULL. *)
Definition or_null {T} (v : option (option T)) : option T :=
  match v with
  | Some x => x
  | None => None
  end.

(** Two values collide under a unique constraint when both are present
    and equal; NULLs never collide. *)
Definition collide {T} (eqb : T -> T -> bool) (x y : option T) : bool :=
  match x, y with
  | Some a, Some b => eqb a b
  | _, _ => false
  end.

(** *** Table [user] *)

Definition User_columns : list string :=
  ["id"; "username"; "email"; "password"].

Definition nextval_user : M Z :=
  fun st =>
    (Ok (user_id_seq st),
     mkStore (user_table st) (advert_table st) (user_id_seq st + 1)
       (advert_id_seq st)).

(** Primary key, [unique=True] on [username] and on [email]: the new row
    [r] against a stored row [r']. *)
Definition users_collide (r r' : User) : bool :=
  Z.eqb (User_id r') (User_id r)
  || collide String.eqb (User_username r') (User_username r)
  || collide String.eqb (User_email r') (User_email r).

Definition user_conflict (r : User) (rows : list User) : bool :=
  existsb (users_collide r) rows.

Definition insert_user (id : option Z) (username email password : option string)
    : M User :=
  fun st =>
    match id with
    | None => (Raise NotNullViolationError, st)
    | Some i =>
        let row := mkUser i username email password in
        if user_conflict row (user_table st)
        then (Raise UniqueViolationError, st)
        else (Ok row,
              mkStore (user_table st ++ [row]) (advert_table st)
                (user_id_seq st) (advert_id_seq st))
    end.

Definition User_get (id : Z) : M (option User) :=
  fun st => (Ok (find (fun r => Z.eqb (User_id r) id) (user_table st)), st).

Definition User_delete (u : User) : M unit :=
  fun st =>
    (Ok tt,
     mkStore (filter (fun r => negb (Z.eqb (User_id r) (User_id u)))
                (user_table st))
       (advert_table st) (user_id_seq st) (advert_id_seq st)).

(** [INSERT INTO user ... RETURNING ...]: the arguments are checked and
    bound first, then the sequence supplies a missing [id], then the
    constraints decide. *)
Definition User_create (kwargs : pydict) : M User :=
  (_ <- lift (check_keys User_columns kwargs) ;;
   id <- lift (column_value as_integer "id" kwargs) ;;
   username <- lift (column_value as_string "username" kwargs) ;;
   email <- lift (column_value as_string "email" kwargs) ;;
   password <- lift (column_value as_string "password" kwargs) ;;
   id' <- match id with
          | Some v => ret v
          | None => (n <- nextval_user ;; ret (Some n))
          end ;;
   insert_user id' (or_null username) (or_null email) (or_null password))%M.

#[global] Instance User_Model : Model User :=
  {| Model_get := User_get;
     Model_delete := User_delete;
     Model_create := User_create |}.

(** *** Table [advert] *)

(** One run of the server.  The module body of [server.py] is executed
    once, when the process starts; [imported_at] is what
    [datetime.utcnow()] returns at that moment. *)
Record process := mkProcess { imported_at : datetime }.

(** The [default=] argument of column [timestamp]: the expression
    [datetime.isoformat(datetime.utcnow())] is evaluated while the class
    body of [Advert] is executed, and the resulting string is the
    default. *)
Definition Advert_timestamp_default (p : process) : string :=
  isoformat (imported_at p).

Definition Advert_columns : list string :=
  ["id"; "title"; "text"; "timestamp"; "user_id"].

Definition nextval_advert : M Z :=
  fun st =>
    (Ok (advert_id_seq st),
     mkStore (user_table st) (advert_table st) (user_id_seq st)
       (advert_id_seq st + 1)).

(** Primary key. *)
Definition advert_conflict (r : Advert) (rows : list Advert) : bool :=
  existsb (fun r' => Z.eqb (Advert_id r') (Advert_id r)) rows.

(** [ForeignKey('user.id')]: a non-NULL [user_id] names a stored user. *)
Definition advert_owner_ok (r : Advert) (users : list User) : bool :=
  match Advert_user_id r with
  | None => true
  | Some u => existsb (fun r' => Z.eqb (User_id r') u) users
  end.

Definition insert_advert (id : option Z) (title text timestamp : option string)
    (user_id : option Z) : M Advert :=
  fun st =>
    match id with
    | None => (Raise NotNullViolationError, st)
    | Some i =>
        let row := mkAdvert i title text timestamp user_id in
        if advert_conflict row (advert_table st)
        then (Raise UniqueViolationError, st)
        else if advert_owner_ok row (user_table st)
        then (Ok row,
              mkStore (user_table st) (advert_table st ++ [row])
                (user_id_seq st) (advert_id_seq st))
        else (Raise ForeignKeyViolationError, st)
    end.

Definition Advert_get (id : Z) : M (option Advert) :=
  fun st =>
    (Ok (find (fun r => Z.eqb (Advert_id r) id) (advert_table st)), st).

Definition Advert_delete (a : Advert) : M unit :=
  fun st =>
    (Ok tt,
     mkStore (user_table st)
       (filter (fun r => negb (Z.eqb (Advert_id r) (Advert_id a)))
          (advert_table st))
       (user_id_seq st) (advert_id_seq st)).

Definition Advert_create (p : process) (kwargs : pydict) : M Advert :=
  (_ <- lift (check_keys Advert_columns kwargs) ;;
   id <- lift (column_value as_integer "id" kwargs) ;;
   title <- lift (column_value as_string "title" kwargs) ;;
   text <- lift (column_value as_string "text" kwargs) ;;
   timestamp <- lift (column_value as_string "timestamp" kwargs) ;;
   user_id <- lift (column_value as_integer "user_id" kwargs) ;;
   id' <- match id with
          | Some v => ret v
          | None => (n <- nextval_advert ;; ret (Some n))
          end ;;
   let timestamp' :=
     match timestamp with
     | Some v => v
     | None => Some (Advert_timestamp_default p)
     end in
   insert_advert id' (or_null title) (or_null text) timestamp'
     (or_null user_id))%M.

#[global] Instance Advert_Model (p : process) : Model Advert :=
  {| Model_get := Advert_get;
     Model_delete := Advert_delete;
     Model_create := Advert_create p |}.

(** ** [class BaseModel] *)

Section BaseModel.

Context {R : Type} {cls : Model R}.

Definition get_or_404 (id : Z) : M R :=
  (instance <- Model_get id ;;
   match instance with
   | Some i => ret i
   | None => raise HTTPNotFound
   end)%M.

Definition delete_or_404 (id : Z) : M Z :=
  (instance <- Model_get id ;;
   match instance with
   | Some i => (Model_delete i ;;; ret id)
   | None => raise HTTPNotFound
   end)%M.

Definition create_instance (kwargs : pydict) : M R :=
  (instance <- try_except (Model_create kwargs) UniqueViolationError
                 (raise HTTPBadRequest) ;;
   ret instance)%M.

End BaseModel.

(** ** [class User] and [class Advert] *)

Definition opt_str (o : option string) : json :=
  match o with
  | Some s => JStr s
  | None => JNull
  end.

Definition opt_int (o : option Z) : json :=
  match o with
  | Some n => JInt n
  | None => JNull
  end.

Definition User_to_dict (self : User) : pydict :=
  [ ("id", JInt (User_id self));
    ("username", opt_str (User_username self));
    ("email", opt_str (User_email self)) ].

(** [v.encode()]: only a [str] has the method. *)
Definition encode (v : json) : result bytes :=
  match v with
  | JStr s => Ok (str_encode s)
  | _ => Raise AttributeError
  end.

(** [User.create_instance]: replaces [kwargs['password']] by the hex MD5
    digest of its bytes and defers to [BaseModel.create_instance]. *)
Definition User_create_instance (kwargs : pydict) : M User :=
  (plain <- lift (dict_item "password" kwargs) ;;
   data <- lift (encode plain) ;;
   create_instance (cls := User_Model)
     (dict_set "password" (JStr (MD5.hexdigest data)) kwargs))%M.

Definition Advert_to_dict (self : Advert) : pydict :=
  [ ("id", JInt (Advert_id self));
    ("title", opt_str (Advert_title self));
    ("text", opt_str (Advert_text self));
    ("owner", opt_int (Advert_user_id self));
    ("timestamp", opt_str (Advert_timestamp self)) ].

(** [__repr__]: [str.format] puts a string in as it is and prints a
    missing value as [None]. *)
Definition format_field (o : option string) : string :=
  match o with
  | Some s => s
  | None => "None"
  end.

Definition User_repr (self : User) : string :=
  ("<User " ++ format_field (User_username self) ++ ">")%string.

Definition Advert_repr (self : Advert) : string :=
  ("<Advert " ++ format_field (Advert_title self) ++ " - "
   ++ format_field (Advert_text self) ++ ">")%string.

(** ** Requests and responses *)

Inductive http_method : Type :=
  | GET | HEAD | POST | PUT | PATCH | DELETE | OPTIONS.

Definition http_method_eqb (a b : http_method) : bool :=
  match a, b with
  | GET, GET | HEAD, HEAD | POST, POST | PUT, PUT | PATCH, PATCH
  | DELETE, DELETE | OPTIONS, OPTIONS => true
  | _, _ => false
  end.

(** [req_body] is the parsed body, [None] when the body is not a JSON
    text; [req_time] is the UTC time at which the request is served. *)
Record request := mkRequest
  { req_method : http_method;
    req_path : string;
    req_body : option json;
    req_time : datetime }.

(** [payload] is the JSON document of the body, [None] when the body is
    not JSON (the pages of the error responses). *)
Record response := mkResponse
  { status : Z;
    payload : option json }.

(** [web.json_response(data)] *)
Definition json_response (data : json) : response := mkResponse 200 (Some data).

(** [await self.request.json()] *)
Definition request_json (req : request) : result json :=
  match req_body req with
  | Some v => Ok v
  | None => Raise JSONDecodeError
  end.

(** Unpacking [data] into keyword arguments: [data] has to be a mapping.
    The keys are taken to be field names, none of them the name of a
    positional parameter of the callee. *)
Definition call_kwargs (data : json) : result pydict :=
  match data with
  | JDict d => Ok d
  | _ => Raise TypeError
  end.

(** [match_info]: the named groups of the route pattern. *)
Definition match_info : Type := list (string * string).

Fixpoint match_info_item (k : string) (mi : match_info) : result string :=
  match mi with
  | [] => Raise (KeyError k)
  | (k', v) :: mi' => if String.eqb k k' then Ok v else match_info_item k mi'
  end.

(** ** The views *)

Definition HealthView_get : M response :=
  ret (json_response (JDict [("status", JStr "OK!")])).

Definition UserView_get (mi : match_info) : M response :=
  (seg <- lift (match_info_item "user_id" mi) ;;
   user_id <- lift (py_int seg) ;;
   user <- get_or_404 (cls := User_Model) user_id ;;
   ret (json_response (JDict (User_to_dict user))))%M.

Definition UserView_post (req : request) : M response :=
  (data <- lift (request_json req) ;;
   kwargs <- lift (call_kwargs data) ;;
   user <- User_create_instance kwargs ;;
   ret (json_response (JDict (User_to_dict user))))%M.

Definition AdvertView_get (p : process) (mi : match_info) : M response :=
  (seg <- lift (match_info_item "advert_id" mi) ;;
   advert_id <- lift (py_int seg) ;;
   advert <- get_or_404 (cls := Advert_Model p) advert_id ;;
   ret (json_response (JDict (Advert_to_dict advert))))%M.

Definition AdvertView_delete (p : process) (mi : match_info) : M response :=
  (seg <- lift (match_info_item "advert_id" mi) ;;
   advert_id <- lift (py_int seg) ;;
   advert <- delete_or_404 (cls := Advert_Model p) advert_id ;;
   ret (json_response (JDict [("Deleted ID", JInt advert)])))%M.

Definition AdvertView_post (p : process) (req : request) : M response :=
  (data <- lift (request_json req) ;;
   kwargs <- lift (call_kwargs data) ;;
   advert <- create_instance (cls := Advert_Model p) kwargs ;;
   ret (json_response (JDict (Advert_to_dict advert))))%M.

(** [SELECT id, username, email FROM public.user] through the raw pool:
    [fetchall] yields one tuple per row, serialised as a JSON array. *)
Definition user_tuple (r : User) : json :=
  JList [JInt (User_id r); opt_str (User_username r); opt_str (User_email r)].

Definition Users_get : M response :=
  fun st => (Ok (json_response (JList (map user_tuple (user_table st)))), st).

(** [SELECT id, title, text, user_id, timestamp FROM public.advert] *)
Definition advert_tuple (r : Advert) : json :=
  JList [JInt (Advert_id r); opt_str (Advert_title r); opt_str (Advert_text r);
         opt_int (Advert_user_id r); opt_str (Advert_timestamp r)].

Definition Adverts_get : M response :=
  fun st =>
    (Ok (json_response (JList (map advert_tuple (advert_table st)))), st).

(** ** The route table *)

(** [Plain path] matches that path; [Digits prefix name] stands for the
    pattern [prefix{name:\d+}]: the prefix followed by one or more
    digits, bound to [name]. *)
Inductive route_pattern : Type :=
  | Plain (path : string)
  | Digits (prefix : string) (name : string).

(** The coroutines the routes lead to: a view class and the method of
    the request. *)
Inductive handler : Type :=
  | h_HealthView_get
  | h_UserView_get
  | h_UserView_post
  | h_Users_get
  | h_AdvertView_get
  | h_AdvertView_post
  | h_Adverts_get
  | h_AdvertView_delete.

Definition routes : list (http_method * route_pattern * handler) :=
  [ (GET, Plain "/", h_HealthView_get);
    (GET, Digits "/user/" "user_id", h_UserView_get);
    (POST, Plain "/user", h_UserView_post);
    (GET, Plain "/users", h_Users_get);
    (GET, Digits "/advert/" "advert_id", h_AdvertView_get);
    (POST, Plain "/advert", h_AdvertView_post);
    (GET, Plain "/adverts", h_Adverts_get);
    (DELETE, Digits "/advert/" "advert_id", h_AdvertView_delete) ].

Fixpoint all_digits (s : string) : bool :=
  match s with
  | EmptyString => true
  | String c s' => is_digit c && all_digits s'
  end.

(** [\d+] against the whole segment. *)
Definition digits_plus (s : string) : bool :=
  match s with
  | EmptyString => false
  | _ => all_digits s
  end.

Fixpoint strip_prefix (pre s : string) : option string :=
  match pre with
  | EmptyString => Some s
  | String c pre' =>
      match s with
      | String d s' => if Ascii.eqb c d then strip_prefix pre' s' else None
      | EmptyString => None
      end
  end.

Definition match_pattern (pat : route_pattern) (path : string)
    : option match_info :=
  match pat with
  | Plain p => if String.eqb p path then Some [] else None
  | Digits pre name =>
      match strip_prefix pre path with
      | Some seg => if digits_plus seg then Some [(name, seg)] else None
      | None => None
      end
  end.

Inductive resolution : Type :=
  | Matched (h : handler) (mi : match_info)
  | MethodNotAllowed
  | NoRoute.

(** The first route, in registration order, whose pattern matches the
    path and whose method is the request's.  [seen] records that some
    pattern matched the path under another method. *)
Fixpoint resolve_in (rs : list (http_method * route_pattern * handler))
    (seen : bool) (m : http_method) (path : string) : resolution :=
  match rs with
  | [] => if seen then MethodNotAllowed else NoRoute
  | (m', pat, h) :: rs' =>
      match match_pattern pat path with
      | Some mi =>
          if http_method_eqb m m' then Matched h mi
          else resolve_in rs' true m path
      | None => resolve_in rs' seen m path
      end
  end.

Definition resolve (m : http_method) (path : string) : resolution :=
  resolve_in routes false m path.

Definition run_handler (p : process) (h : handler) (mi : match_info)
    (req : request) : M response :=
  match h with
  | h_HealthView_get => HealthView_get
  | h_UserView_get => UserView_get mi
  | h_UserView_post => UserView_post req
  | h_Users_get => Users_get
  | h_AdvertView_get => AdvertView_get p mi
  | h_AdvertView_post => AdvertView_post p req
  | h_Adverts_get => Adverts_get
  | h_AdvertView_delete => AdvertView_delete p mi
  end.

(** ** The web layer *)

(** What the server answers when a handler raises: the response of an
    HTTP exception, or its own 500 page for any other exception. *)
Definition error_response (e : exn) : response :=
  match status_of_exn e with
  | Some code => mkResponse code None
  | None => mkResponse 500 None
  end.

Definition serve (p : process) (req : request) (st : store)
    : response * store :=
  match resolve (req_method req) (req_path req) with
  | Matched h mi =>
      match run_handler p h mi req st with
      | (Ok r, st') => (r, st')
      | (Raise e, st') => (error_response e, st')
      end
  | MethodNotAllowed => (mkResponse 405 None, st)
  | NoRoute => (mkResponse 404 None, st)
  end.

(** A run of the server: the requests are served in order, and each is
    recorded with its response. *)
Fixpoint run (p : process) (reqs : list request) (st : store)
    : list (request * response) * store :=
  match reqs with
  | [] => ([], st)
  | req :: reqs' =>
      let '(resp, st') := serve p req st in
      let '(log, st'') := run p reqs' st' in
      ((req, resp) :: log, st'')
  end.

(** The requests that were served since the tables were created, most
    recent first, and the store they lead to.  The server may have been
    restarted in between: each request is served by some process. *)
Definition event : Type := request * response.

Inductive served : list event -> store -> Prop :=
  | served_start : served [] empty_store
  | served_step (p : process) (req : request) (log : list event) (st : store) :
      served log st ->
      served ((req, fst (serve p req st)) :: log) (snd (serve p req st)).

(** The record a successful [POST path] answered with. *)
Definition created_record (path : string) (ev : event) : option pydict :=
  let '(req, resp) := ev in
  if http_method_eqb (req_method req) POST && String.eqb (req_path req) path
     && Z.eqb (status resp) 200
  then match payload resp with
       | Some (JDict d) => Some d
       | _ => None
       end
  else None.



(** The field values of a record, in the order of its fields. *)
Definition record_tuple (d : pydict) : json := JList (map snd d).

Definition created_records (path : string) (log : list event) : list pydict :=
  flat_map (fun ev =>
    match created_record path ev with
    | Some d => [d]
    | None => []
    end) log.

(** What a request submits for field [k]: its value in the body, [null]
    when the body does not mention the field. *)
Definition submitted (k : string) (d : pydict) : json :=
  match dict_get k d with
  | Some v => v
  | None => JNull
  end.



(** ** Well-formed sign-up requests *)

Definition is_ok {A} (r : result A) : bool :=
  match r with
  | Ok _ => true
  | Raise _ => false
  end.




(** ** Well-formed advert requests *)

(** The keyword arguments that reach the [INSERT] of [Advert.create]:
    columns of [Advert] only, title, text and timestamp given as strings or
    [null] (or left out), and id and [user_id], if given, integers (the
    [user_id] may also be [null]). *)
Definition Advert_kwargs_ok (d : pydict) : bool :=
  is_ok (check_keys Advert_columns d)
  && match dict_get "id" d with
     | None | Some (JInt _) => true
     | _ => false
     end
  && is_ok (column_value as_string "title" d)
  && is_ok (column_value as_string "text" d)
  && is_ok (column_value as_string "timestamp" d)
  && match dict_get "user_id" d with
     | None | Some JNull | Some (JInt _) => true
     | _ => false
     end.

Definition str_field (k : string) (d : pydict) : option string :=
  match dict_get k d with
  | Some (JStr s) => Some s
  | _ => None
  end.

Definition int_field (k : string) (d : pydict) : option Z :=
  match dict_get k d with
  | Some (JInt n) => Some n
  | _ => None
  end.

(** The row a well-formed [POST /advert] asks for: the fields of the body,
    NULL where the body has none, but the next value of the sequence for a
    missing id and the default of the column for a missing timestamp. *)
Definition advert_row (p : process) (d : pydict) (st : store) : Advert :=
  mkAdvert
    (match int_field "id" d with
     | Some i => i
     | None => advert_id_seq st
     end)
    (str_field "title" d) (str_field "text" d)
    (match dict_get "timestamp" d with
     | None => Some (Advert_timestamp_default p)
     | Some _ => str_field "timestamp" d
     end)
    (int_field "user_id" d).

(** The store after the sequence was asked for an id, if it was. *)
Definition after_nextval (d : pydict) (st : store) : store :=
  match dict_get "id" d with
  | None => mkStore (user_table st) (advert_table st) (user_id_seq st)
              (advert_id_seq st + 1)
  | Some _ => st
  end.

(** ** The invariants of table [advert]

    Ids are not repeated, and every owner is a stored user. *)
Definition advert_table_ok (st : store) : Prop :=
  NoDup (map Advert_id (advert_table st)) /\
  forall a u, In a (advert_table st) -> Advert_user_id a = Some u ->
              In u (map User_id (user_table st)).

(** The shapes of the JSON documents the views answer with. *)
Definition is_tuple (n : nat) (v : json) : bool :=
  match v with
  | JList l => Nat.eqb (List.length l) n
  | _ => false
  end.

Definition payload_shape (v : json) : bool :=
  match v with
  | JDict d =>
      let keys := map fst d in
      if list_eq_dec string_dec keys ["status"] then true
      else if list_eq_dec string_dec keys ["id"; "username"; "email"] then true
      else if list_eq_dec string_dec keys
                ["id"; "title"; "text"; "owner"; "timestamp"] then true
      else if list_eq_dec string_dec keys ["Deleted ID"] then true
      else false
  | JList l => forallb (is_tuple 3) l || forallb (is_tuple 5) l
  | _ => false
  end.

(** ** The invariant of table [user]

    No row collides with a row stored after it. *)
Fixpoint user_table_ok (rows : list User) : Prop :=
  match rows with
  | [] => True
  | r :: rest => user_conflict r rest = false /\ user_table_ok rest
  end.

(** ** Sample data

    The scenario of the specification: a server started at midnight, the
    user alice and her advert. *)
Definition midnight : datetime := mkDatetime 2024 1 1 0 0 0 0.
Definition noon : datetime := mkDatetime 2024 1 1 12 0 0 0.
Definition evening : datetime := mkDatetime 2024 1 1 18 30 0 250000.

Definition sample_process : process := mkProcess midnight.

Definition alice : json :=
  JDict [("username", JStr "alice"); ("email", JStr "a@x.com");
         ("password", JStr "p1")].

Definition bike : json :=
  JDict [("title", JStr "Bike"); ("text", JStr "For sale");
         ("user_id", JInt 1)].

(** The store after alice signed up. *)
Definition store_with_alice : store :=
  snd (serve sample_process (mkRequest POST "/user" (Some alice) noon)
         empty_store).

(** The store after alice posted her advert. *)
Definition store_with_bike : store :=
  snd (serve sample_process (mkRequest POST "/advert" (Some bike) noon)
         store_with_alice).

(** The store after a second advert was posted. *)
Definition store_with_two_bikes : store :=
  snd (serve sample_process (mkRequest POST "/advert" (Some bike) evening)
         store_with_bike).

(** The two requests of the scenario, most recent first, with their
    responses. *)
Definition sign_up : request := mkRequest POST "/user" (Some alice) noon.
Definition post_bike : request := mkRequest POST "/advert" (Some bike) noon.

Definition sample_log : list event :=
  [ (post_bike, fst (serve sample_process post_bike store_with_alice));
    (sign_up, fst (serve sample_process sign_up empty_store)) ].

(** ** Proof steps *)

(** Case analysis on the condition of an [if] of the goal. *)
Ltac break_if :=
  match goal with
  | |- context [if ?x then _ else _] => destruct x eqn:?
  end.

Ltac unfold_M := unfold bind, lift, ret, raise, try_except in *.

(** Facts on the exceptions that no handler catches. *)
Create HintDb uncaught.

Ltac raised := eauto with uncaught.

(** * Properties *)

(** ** The builtins on sample inputs *)

(** The test suite of RFC 1321, and the password of the sample user. *)
Example md5_empty :
  MD5.hexdigest (str_encode "") = "d41d8cd98f00b204e9800998ecf8427e".
Proof. vm_compute. reflexivity. Qed.

Example md5_abc :
  MD5.hexdigest (str_encode "abc") = "900150983cd24fb0d6963f7d28e17f72".
Proof. vm_compute. reflexivity. Qed.

Example md5_message_digest :
  MD5.hexdigest (str_encode "message digest")
  = "f96b697d7cb7938d525a2f31aaf161d0".
Proof. vm_compute. reflexivity. Qed.

Example md5_two_blocks :
  MD5.hexdigest (str_encode
    "12345678901234567890123456789012345678901234567890123456789012345678901234567890")
  = "57edf4a22be3c955ac49da2e2107b67a".
Proof. vm_compute. reflexivity. Qed.

Example py_int_samples :
  py_int "42" = Ok 42 /\ py_int "007" = Ok 7 /\ py_int " -1_000 " = Ok (-1000)
  /\ py_int "" = Raise ValueError /\ py_int "4x" = Raise ValueError
  /\ py_int "1__0" = Raise ValueError.
Proof. vm_compute. repeat split. Qed.

Example isoformat_samples :
  isoformat midnight = "2024-01-01T00:00:00"
  /\ isoformat evening = "2024-01-01T18:30:00.250000".
Proof. vm_compute. repeat split. Qed.

Example resolve_samples :
  resolve GET "/user/12" = Matched h_UserView_get [("user_id", "12")]
  /\ resolve GET "/user/x" = NoRoute
  /\ resolve GET "/user/" = NoRoute
  /\ resolve POST "/user/12" = MethodNotAllowed
  /\ resolve DELETE "/advert/3"
     = Matched h_AdvertView_delete [("advert_id", "3")]
  /\ resolve DELETE "/user/3" = MethodNotAllowed.
Proof. vm_compute. repeat split. Qed.

(** ** [int] on the digits of a path segment *)

Section PathDigits.
















End PathDigits.

(** ** The route table *)

Section Routing.

Lemma strip_prefix_Some pre s seg :
  strip_prefix pre s = Some seg -> s = (pre ++ seg)%string.
Proof.
  revert s. induction pre as [|c pre IH]; intros s; simpl.
  - now intros [= ->].
  - destruct s as [|d s]; [discriminate|].
    destruct (Ascii.eqb_spec c d) as [->|]; [|discriminate].
    intros H. now rewrite (IH _ H).
Qed.

Lemma http_method_eqb_eq a b : http_method_eqb a b = true -> a = b.
Proof. destruct a, b; simpl; congruence. Qed.

(** A resolved request went through one of the routes. *)
Lemma resolve_in_Matched rs seen m path h mi :
  resolve_in rs seen m path = Matched h mi ->
  exists pat, In (m, pat, h) rs /\ match_pattern pat path = Some mi.
Proof.
  revert seen. induction rs as [|[[m' pat] h'] rs IH]; intros seen; simpl.
  - destruct seen; discriminate.
  - destruct (match_pattern pat path) as [mi'|] eqn:Epat.
    + destruct (http_method_eqb m m') eqn:Em.
      * intros [= <- <-]. apply http_method_eqb_eq in Em as <-.
        exists pat. split; [now left | exact Epat].
      * intros H. destruct (IH _ H) as (pat' & Hin & Hm).
        exists pat'. split; [now right | exact Hm].
    + intros H. destruct (IH _ H) as (pat' & Hin & Hm).
      exists pat'. split; [now right | exact Hm].
Qed.

Lemma match_pattern_Digits pre name path mi :
  match_pattern (Digits pre name) path = Some mi ->
  exists seg, path = (pre ++ seg)%string /\ digits_plus seg = true
              /\ mi = [(name, seg)].
Proof.
  simpl. destruct (strip_prefix pre path) as [seg|] eqn:E; [|discriminate].
  destruct (digits_plus seg) eqn:D; [|discriminate].
  intros [= <-]. exists seg. auto using strip_prefix_Some.
Qed.

(** Every handler is reached by its own route only. *)
Lemma resolve_route m path h mi :
  resolve m path = Matched h mi ->
  exists pat, match_pattern pat path = Some mi /\
    match h with
    | h_HealthView_get => m = GET /\ pat = Plain "/"
    | h_UserView_get => m = GET /\ pat = Digits "/user/" "user_id"
    | h_UserView_post => m = POST /\ pat = Plain "/user"
    | h_Users_get => m = GET /\ pat = Plain "/users"
    | h_AdvertView_get => m = GET /\ pat = Digits "/advert/" "advert_id"
    | h_AdvertView_post => m = POST /\ pat = Plain "/advert"
    | h_Adverts_get => m = GET /\ pat = Plain "/adverts"
    | h_AdvertView_delete => m = DELETE /\ pat = Digits "/advert/" "advert_id"
    end.
Proof.
  intros H. apply resolve_in_Matched in H as (pat & Hin & Hm).
  exists pat. split; [exact Hm|].
  simpl in Hin.
  repeat (destruct Hin as [[= <- <- <-]|Hin]; [split; reflexivity|]).
  contradiction.
Qed.

Lemma match_pattern_Plain p path mi :
  match_pattern (Plain p) path = Some mi -> path = p /\ mi = [].
Proof.
  simpl. destruct (String.eqb_spec p path) as [->|]; [|discriminate].
  now intros [= <-].
Qed.

End Routing.



(** ** The ORM layer *)

Section Orm.

Lemma column_value_submitted k d v :
  column_value as_string k d = Ok v -> opt_str (or_null v) = submitted k d.
Proof.
  unfold column_value, submitted.
  destruct (dict_get k d) as [j|]; [|now intros [= <-]].
  destruct j; simpl; intros [= <-]; reflexivity.
Qed.

Lemma check_keys_exn cols kw e :
  check_keys cols kw = Raise e -> is_http_exn e = false.
Proof.
  induction kw as [|[k v] kw IH]; simpl; [discriminate|].
  destruct (existsb (String.eqb k) cols); [exact IH|].
  now intros [= <-].
Qed.

Lemma column_value_string_exn k kw e :
  column_value as_string k kw = Raise e -> is_http_exn e = false.
Proof.
  unfold column_value. destruct (dict_get k kw) as [[]|]; simpl;
    intros [= <-]; reflexivity.
Qed.

Lemma column_value_integer_exn k kw e :
  column_value as_integer k kw = Raise e -> is_http_exn e = false.
Proof.
  unfold column_value. destruct (dict_get k kw) as [[]|]; simpl;
    intros [= <-]; reflexivity.
Qed.

Hint Resolve check_keys_exn column_value_string_exn
  column_value_integer_exn : uncaught.

(** [User.create] adds the returned row at the end of the table or
    raises, with both tables as they were. *)
Lemma User_create_cases kwargs st :
  match User_create kwargs st with
  | (Ok row, st') =>
      user_conflict row (user_table st) = false /\
      user_table st' = user_table st ++ [row] /\
      advert_table st' = advert_table st /\
      opt_str (User_username row) = submitted "username" kwargs /\
      opt_str (User_email row) = submitted "email" kwargs /\
      opt_str (User_password row) = submitted "password" kwargs
  | (Raise e, st') =>
      user_table st' = user_table st /\ advert_table st' = advert_table st
      /\ is_http_exn e = false
  end.
Proof.
  unfold User_create. unfold_M.
  destruct (check_keys User_columns kwargs) eqn:Ek; [|raised].
  destruct (column_value as_integer "id" kwargs) as [id|] eqn:Ei; [|raised].
  destruct (column_value as_string "username" kwargs) as [u|] eqn:Eu;
    [|raised].
  destruct (column_value as_string "email" kwargs) as [e|] eqn:Ee; [|raised].
  destruct (column_value as_string "password" kwargs) as [w|] eqn:Ew;
    [|raised].
  apply column_value_submitted in Eu, Ee, Ew.
  destruct id as [[i|]|]; unfold nextval_user, insert_user; simpl;
    try break_if; simpl; auto 10.
Qed.

Lemma Advert_create_cases p kwargs st :
  match Advert_create p kwargs st with
  | (Ok row, st') =>
      advert_conflict row (advert_table st) = false /\
      advert_table st' = advert_table st ++ [row] /\
      user_table st' = user_table st /\
      opt_str (Advert_timestamp row) =
        match dict_get "timestamp" kwargs with
        | Some v => v
        | None => JStr (Advert_timestamp_default p)
        end
  | (Raise e, st') =>
      user_table st' = user_table st /\ advert_table st' = advert_table st
      /\ is_http_exn e = false
  end.
Proof.
  unfold Advert_create. unfold_M.
  destruct (check_keys Advert_columns kwargs) eqn:Ek; [|raised].
  destruct (column_value as_integer "id" kwargs) as [id|] eqn:Ei; [|raised].
  destruct (column_value as_string "title" kwargs) as [ti|] eqn:Eti;
    [|raised].
  destruct (column_value as_string "text" kwargs) as [te|] eqn:Ete; [|raised].
  destruct (column_value as_string "timestamp" kwargs) as [ts|] eqn:Ets;
    [|raised].
  destruct (column_value as_integer "user_id" kwargs) as [ow|] eqn:Eow;
    [|raised].
  assert (Hts : opt_str match ts with
                        | Some v => v
                        | None => Some (Advert_timestamp_default p)
                        end
                = match dict_get "timestamp" kwargs with
                  | Some v => v
                  | None => JStr (Advert_timestamp_default p)
                  end).
  { unfold column_value in Ets.
    destruct (dict_get "timestamp" kwargs) as [j|]; [|now inversion Ets].
    destruct j; simpl in Ets; inversion Ets; reflexivity. }
  destruct id as [[i|]|]; unfold nextval_advert, insert_advert; simpl;
    repeat (break_if; simpl); auto 10.
Qed.

End Orm.

(** ** Dictionaries *)

Section Dicts.

Lemma dict_get_set_eq k v d : dict_get k (dict_set k v d) = Some v.
Proof.
  induction d as [|[k' v'] d IH]; simpl.
  - now rewrite String.eqb_refl.
  - destruct (String.eqb k k') eqn:E; simpl; rewrite ?String.eqb_refl, ?E; auto.
Qed.

Lemma dict_get_set_ne k k' v d :
  k <> k' -> dict_get k' (dict_set k v d) = dict_get k' d.
Proof.
  intros Hne. induction d as [|[k0 v0] d IH]; simpl.
  - destruct (String.eqb_spec k' k); [congruence | reflexivity].
  - destruct (String.eqb_spec k k0) as [->|]; simpl.
    + destruct (String.eqb_spec k' k0); [congruence | reflexivity].
    + destruct (String.eqb k' k0); auto.
Qed.

Lemma submitted_set_ne k k' v d :
  k <> k' -> submitted k' (dict_set k v d) = submitted k' d.
Proof. intros H. unfold submitted. now rewrite dict_get_set_ne. Qed.

Lemma opt_str_JStr o s : opt_str o = JStr s -> o = Some s.
Proof. destruct o; simpl; congruence. Qed.

End Dicts.

(** ** [POST /user] *)

Section UserPost.

(** [UserView.post] either answers with the new row, appended to the
    table with the digest of the submitted password, or raises and
    leaves both tables as they were. *)
Lemma UserView_post_cases req st :
  match UserView_post req st with
  | (Ok resp, st') =>
      exists d plain row,
        req_body req = Some (JDict d) /\
        dict_get "password" d = Some (JStr plain) /\
        resp = json_response (JDict (User_to_dict row)) /\
        user_conflict row (user_table st) = false /\
        user_table st' = user_table st ++ [row] /\
        advert_table st' = advert_table st /\
        opt_str (User_username row) = submitted "username" d /\
        opt_str (User_email row) = submitted "email" d /\
        User_password row = Some (MD5.hexdigest (str_encode plain))
  | (Raise e, st') =>
      user_table st' = user_table st /\ advert_table st' = advert_table st
      /\ (e = HTTPBadRequest \/ is_http_exn e = false)
  end.
Proof.
  unfold UserView_post, request_json, User_create_instance, create_instance.
  unfold_M. simpl.
  destruct (req_body req) as [data|]; [|auto].
  destruct data as [| | | |l|d]; simpl; auto.
  unfold dict_item. destruct (dict_get "password" d) as [plain|] eqn:Ew;
    [|auto].
  destruct plain as [| | |plain| |]; simpl; auto.
  set (kwargs := dict_set "password" _ d).
  pose proof (User_create_cases kwargs st) as Hc.
  destruct (User_create kwargs st) as [[row|e] st'].
  - destruct Hc as (Hconf & Htab & Hadv & Hu & He & Hw).
    exists d, plain, row. subst kwargs.
    rewrite submitted_set_ne in Hu, He by discriminate.
    unfold submitted in Hw. rewrite dict_get_set_eq in Hw.
    apply opt_str_JStr in Hw. auto 10.
  - destruct (exn_eq_dec e UniqueViolationError); tauto.
Qed.

Lemma serve_POST_user p body t st :
  serve p (mkRequest POST "/user" body t) st =
    match UserView_post (mkRequest POST "/user" body t) st with
    | (Ok r, st') => (r, st')
    | (Raise e, st') => (error_response e, st')
    end.
Proof. reflexivity. Qed.

Lemma error_response_status e : status (error_response e) <> 200.
Proof. destruct e; simpl; discriminate. Qed.

End UserPost.

(** ** The digest *)

Section Digest.




End Digest.


(** The scenario of the specification: alice's password [p1] is stored
    as its digest. *)
Example alice_password_digest :
  map User_password (user_table store_with_alice)
  = [Some "ec6ef230f1828039ee794566b9c58adc"].
Proof. vm_compute. reflexivity. Qed.

(** ** [GET /user/{id}] and [GET /advert/{id}] *)

Section Fetch.

Lemma resolve_GET_user seg :
  digits_plus seg = true ->
  resolve GET ("/user/" ++ seg) = Matched h_UserView_get [("user_id", seg)].
Proof.
  intros H. unfold resolve, routes. simpl. rewrite H. reflexivity.
Qed.

Lemma resolve_GET_advert seg :
  digits_plus seg = true ->
  resolve GET ("/advert/" ++ seg)
  = Matched h_AdvertView_get [("advert_id", seg)].
Proof.
  intros H. unfold resolve, routes. simpl. rewrite H. reflexivity.
Qed.

Lemma resolve_DELETE_advert seg :
  digits_plus seg = true ->
  resolve DELETE ("/advert/" ++ seg)
  = Matched h_AdvertView_delete [("advert_id", seg)].
Proof.
  intros H. unfold resolve, routes. simpl. rewrite H. reflexivity.
Qed.


Lemma serve_GET_advert p seg id body t st :
  digits_plus seg = true -> py_int seg = Ok id ->
  serve p (mkRequest GET ("/advert/" ++ seg) body t) st =
    match find (fun r => Z.eqb (Advert_id r) id) (advert_table st) with
    | Some a => (json_response (JDict (Advert_to_dict a)), st)
    | None => (mkResponse 404 None, st)
    end.
Proof.
  intros Hd Hi. unfold serve. cbn [req_method req_path].
  rewrite (resolve_GET_advert seg Hd).
  unfold run_handler, AdvertView_get, get_or_404. unfold_M. simpl.
  rewrite Hi. simpl. unfold Advert_get.
  destruct (find _ (advert_table st)); reflexivity.
Qed.




End Fetch.



(** ** [POST /advert] and [DELETE /advert/{id}] *)

Section AdvertHandlers.

Lemma AdvertView_post_cases p req st :
  match AdvertView_post p req st with
  | (Ok resp, st') =>
      exists d row,
        req_body req = Some (JDict d) /\
        resp = json_response (JDict (Advert_to_dict row)) /\
        advert_conflict row (advert_table st) = false /\
        advert_table st' = advert_table st ++ [row] /\
        user_table st' = user_table st /\
        opt_str (Advert_timestamp row) =
          match dict_get "timestamp" d with
          | Some v => v
          | None => JStr (Advert_timestamp_default p)
          end
  | (Raise e, st') =>
      user_table st' = user_table st /\ advert_table st' = advert_table st
      /\ (e = HTTPBadRequest \/ is_http_exn e = false)
  end.
Proof.
  unfold AdvertView_post, request_json, create_instance.
  unfold_M. simpl.
  destruct (req_body req) as [data|]; [|auto].
  destruct data as [| | | |l|d]; simpl; auto.
  pose proof (Advert_create_cases p d st) as Hc.
  destruct (Advert_create p d st) as [[row|e] st'].
  - destruct Hc as (Hconf & Htab & Hu & Hts). exists d, row. auto 10.
  - destruct (exn_eq_dec e UniqueViolationError); tauto.
Qed.

Lemma py_int_exn s e : py_int s = Raise e -> is_http_exn e = false.
Proof.
  unfold py_int.
  destruct (match strip s with
            | String c r =>
                if Ascii.eqb c "-" then (true, r)
                else if Ascii.eqb c "+" then (false, r)
                else (false, strip s)
            | EmptyString => (false, strip s)
            end) as [negative lit].
  destruct (int_digits false lit) as [ds|]; [|now intros [= <-]].
  destruct (digits_value ds); [discriminate | now intros [= <-]].
Qed.

Lemma match_info_item_exn k mi e :
  match_info_item k mi = Raise e -> is_http_exn e = false.
Proof.
  induction mi as [|[k' v] mi IH]; simpl; [now intros [= <-]|].
  destruct (String.eqb k k'); [discriminate | exact IH].
Qed.

Lemma UserView_get_cases mi st :
  match UserView_get mi st with
  | (Ok resp, st') => st' = st /\ status resp = 200
  | (Raise e, st') => st' = st /\ (e = HTTPNotFound \/ is_http_exn e = false)
  end.
Proof.
  unfold UserView_get, get_or_404. unfold_M. simpl.
  destruct (match_info_item "user_id" mi) as [seg|e] eqn:Em;
    [|eauto using match_info_item_exn].
  destruct (py_int seg) as [id|e] eqn:Ei; [|eauto using py_int_exn].
  unfold User_get. destruct (find _ (user_table st)); simpl; auto.
Qed.

Lemma AdvertView_get_cases p mi st :
  match AdvertView_get p mi st with
  | (Ok resp, st') => st' = st /\ status resp = 200
  | (Raise e, st') => st' = st /\ (e = HTTPNotFound \/ is_http_exn e = false)
  end.
Proof.
  unfold AdvertView_get, get_or_404. unfold_M. simpl.
  destruct (match_info_item "advert_id" mi) as [seg|e] eqn:Em;
    [|eauto using match_info_item_exn].
  destruct (py_int seg) as [id|e] eqn:Ei; [|eauto using py_int_exn].
  unfold Advert_get. destruct (find _ (advert_table st)); simpl; auto.
Qed.

(** [AdvertView.delete] removes the rows that carry the id of the
    instance [cls.get] found, or raises and leaves the store alone. *)
Lemma AdvertView_delete_cases p mi st :
  match AdvertView_delete p mi st with
  | (Ok resp, st') =>
      exists seg id a,
        match_info_item "advert_id" mi = Ok seg /\ py_int seg = Ok id /\
        find (fun r => Z.eqb (Advert_id r) id) (advert_table st) = Some a /\
        resp = json_response (JDict [("Deleted ID", JInt id)]) /\
        advert_table st' =
          filter (fun r => negb (Z.eqb (Advert_id r) id)) (advert_table st) /\
        user_table st' = user_table st
  | (Raise e, st') => st' = st /\ (e = HTTPNotFound \/ is_http_exn e = false)
  end.
Proof.
  unfold AdvertView_delete, delete_or_404. unfold_M. simpl.
  destruct (match_info_item "advert_id" mi) as [seg|e] eqn:Em;
    [|eauto using match_info_item_exn].
  destruct (py_int seg) as [id|e] eqn:Ei; [|eauto using py_int_exn].
  unfold Advert_get.
  destruct (find _ (advert_table st)) as [a|] eqn:Ef; simpl; auto.
  exists seg, id, a. destruct (find_some _ _ Ef) as [_ Hid].
  apply Z.eqb_eq in Hid. rewrite Hid. auto 10.
Qed.

Lemma AdvertView_delete_found p seg id a st :
  py_int seg = Ok id ->
  find (fun r => Z.eqb (Advert_id r) id) (advert_table st) = Some a ->
  AdvertView_delete p [("advert_id", seg)] st =
    (Ok (json_response (JDict [("Deleted ID", JInt id)])),
     mkStore (user_table st)
       (filter (fun r => negb (Z.eqb (Advert_id r) id)) (advert_table st))
       (user_id_seq st) (advert_id_seq st)).
Proof.
  intros Hi Hf. unfold AdvertView_delete, delete_or_404. unfold_M. simpl.
  rewrite Hi. simpl. unfold Advert_get. rewrite Hf. simpl.
  destruct (find_some _ _ Hf) as [_ Hid]. apply Z.eqb_eq in Hid.
  unfold Advert_delete. now rewrite Hid.
Qed.

Lemma serve_DELETE_advert p seg id body t st :
  digits_plus seg = true -> py_int seg = Ok id ->
  serve p (mkRequest DELETE ("/advert/" ++ seg) body t) st =
    match find (fun r => Z.eqb (Advert_id r) id) (advert_table st) with
    | Some _ =>
        (json_response (JDict [("Deleted ID", JInt id)]),
         mkStore (user_table st)
           (filter (fun r => negb (Z.eqb (Advert_id r) id)) (advert_table st))
           (user_id_seq st) (advert_id_seq st))
    | None => (mkResponse 404 None, st)
    end.
Proof.
  intros Hd Hi. unfold serve. cbn [req_method req_path].
  rewrite (resolve_DELETE_advert seg Hd). cbn [run_handler].
  destruct (find _ (advert_table st)) as [a|] eqn:Hf.
  - now rewrite (AdvertView_delete_found p seg id a st Hi Hf).
  - unfold AdvertView_delete, delete_or_404. unfold_M. simpl.
    rewrite Hi. simpl. unfold Advert_get. now rewrite Hf.
Qed.


End AdvertHandlers.



(** ** One request after the other *)

Section Steps.

Lemma created_record_method path req resp :
  req_method req <> POST -> created_record path (req, resp) = None.
Proof.
  intros H. unfold created_record.
  destruct (req_method req); try congruence; reflexivity.
Qed.

Lemma created_record_path path req resp :
  req_path req <> path -> created_record path (req, resp) = None.
Proof.
  intros H. unfold created_record.
  destruct (String.eqb_spec (req_path req) path); [congruence|].
  now rewrite andb_false_r.
Qed.

Lemma created_record_error path req e :
  created_record path (req, error_response e) = None.
Proof.
  unfold created_record.
  replace (Z.eqb (status (error_response e)) 200) with false.
  - now rewrite andb_false_r.
  - destruct e; reflexivity.
Qed.

Lemma created_record_json path req d :
  req_method req = POST -> req_path req = path ->
  created_record path (req, json_response (JDict d)) = Some d.
Proof.
  intros Hm Hp. unfold created_record. rewrite Hm, Hp, String.eqb_refl.
  reflexivity.
Qed.

(** The effect of one request on table [user]: nothing, unless it is a
    successful [POST /user], which appends the record it answers
    with. *)
Lemma serve_user_table p req st :
  (user_table (snd (serve p req st)) = user_table st /\
   created_record "/user" (req, fst (serve p req st)) = None)
    \/ exists row,
       user_conflict row (user_table st) = false /\
       user_table (snd (serve p req st)) = user_table st ++ [row] /\
       created_record "/user" (req, fst (serve p req st))
       = Some (User_to_dict row).
Proof.
  unfold serve.
  destruct (resolve (req_method req) (req_path req)) as [h mi| |] eqn:R;
    cbn [fst snd];
    try (left; split; [reflexivity|]; unfold created_record; simpl;
         now rewrite andb_false_r).
  apply resolve_route in R as (pat & Hpat & Hroute).
  destruct h; destruct Hroute as [Hm ->]; cbn [run_handler].
  - left. split; [reflexivity|].
    apply created_record_method. rewrite Hm. discriminate.
  - pose proof (UserView_get_cases mi st) as H.
    destruct (UserView_get mi st) as [[r|e] st']; cbn [fst snd];
      destruct H as [-> _]; left; (split; [reflexivity|]);
      apply created_record_method; rewrite Hm; discriminate.
  - apply match_pattern_Plain in Hpat as [Hp _].
    pose proof (UserView_post_cases req st) as H.
    destruct (UserView_post req st) as [[r|e] st']; cbn [fst snd].
        + destruct H as (d & plain & row & _ & _ & -> & Hc & Ht & _).
      right. exists row. split; [exact Hc|]. split; [exact Ht|].
      now apply created_record_json.
    + left. split; [tauto | apply created_record_error].
  - left. split; [reflexivity|].
    apply created_record_method. rewrite Hm. discriminate.
  - pose proof (AdvertView_get_cases p mi st) as H.
    destruct (AdvertView_get p mi st) as [[r|e] st']; cbn [fst snd];
      destruct H as [-> _]; left; (split; [reflexivity|]);
      apply created_record_method; rewrite Hm; discriminate.
  - apply match_pattern_Plain in Hpat as [Hp _].
    pose proof (AdvertView_post_cases p req st) as H.
    destruct (AdvertView_post p req st) as [[r|e] st']; cbn [fst snd].
    + destruct H as (d & row & _ & _ & _ & _ & Hu & _).
      left. split; [exact Hu|].
      apply created_record_path. rewrite Hp. discriminate.
    + left. split; [tauto | apply created_record_error].
  - left. split; [reflexivity|].
    apply created_record_method. rewrite Hm. discriminate.
  - pose proof (AdvertView_delete_cases p mi st) as H.
    destruct (AdvertView_delete p mi st) as [[r|e] st']; cbn [fst snd].
    + destruct H as (seg & id & a & _ & _ & _ & _ & _ & Hu).
      left. split; [exact Hu|].
      apply created_record_method. rewrite Hm. discriminate.
    + destruct H as [-> _]. left. split; [reflexivity|].
      apply created_record_error.
Qed.

(** The effect of one request on table [advert]: nothing, unless it is
    a successful [POST /advert], which appends the record it answers
    with, or a [DELETE], which removes the rows of one id. *)
Lemma serve_advert_table p req st :
  (advert_table (snd (serve p req st)) = advert_table st /\
   created_record "/advert" (req, fst (serve p req st)) = None)
  \/ (exists row,
       advert_table (snd (serve p req st)) = advert_table st ++ [row] /\
       created_record "/advert" (req, fst (serve p req st))
       = Some (Advert_to_dict row))
  \/ (req_method req = DELETE /\ status (fst (serve p req st)) = 200 /\
      created_record "/advert" (req, fst (serve p req st)) = None /\
      exists id,
        advert_table (snd (serve p req st))
        = filter (fun r => negb (Z.eqb (Advert_id r) id)) (advert_table st)).
Proof.
  unfold serve.
  destruct (resolve (req_method req) (req_path req)) as [h mi| |] eqn:R;
    cbn [fst snd];
    try (left; split; [reflexivity|]; unfold created_record; simpl;
         now rewrite andb_false_r).
  apply resolve_route in R as (pat & Hpat & Hroute).
  destruct h; destruct Hroute as [Hm ->]; cbn [run_handler].
  - left. split; [reflexivity|].
    apply created_record_method. rewrite Hm. discriminate.
  - pose proof (UserView_get_cases mi st) as H.
    destruct (UserView_get mi st) as [[r|e] st']; cbn [fst snd];
      destruct H as [-> _]; left; (split; [reflexivity|]);
      apply created_record_method; rewrite Hm; discriminate.
  - apply match_pattern_Plain in Hpat as [Hp _].
    pose proof (UserView_post_cases req st) as H.
    destruct (UserView_post req st) as [[r|e] st']; cbn [fst snd].
    + destruct H as (d & plain & row & _ & _ & _ & _ & _ & Ha & _).
      left. split; [exact Ha|].
      apply created_record_path. rewrite Hp. discriminate.
    + left. split; [tauto | apply created_record_error].
  - left. split; [reflexivity|].
    apply created_record_method. rewrite Hm. discriminate.
  - pose proof (AdvertView_get_cases p mi st) as H.
    destruct (AdvertView_get p mi st) as [[r|e] st']; cbn [fst snd];
      destruct H as [-> _]; left; (split; [reflexivity|]);
      apply created_record_method; rewrite Hm; discriminate.
  - apply match_pattern_Plain in Hpat as [Hp _].
    pose proof (AdvertView_post_cases p req st) as H.
    destruct (AdvertView_post p req st) as [[r|e] st']; cbn [fst snd].
    + destruct H as (d & row & _ & -> & _ & Ht & _ & _).
      right. left. exists row. split; [exact Ht|].
      now apply created_record_json.
    + left. split; [tauto | apply created_record_error].
  - left. split; [reflexivity|].
    apply created_record_method. rewrite Hm. discriminate.
  - pose proof (AdvertView_delete_cases p mi st) as H.
    destruct (AdvertView_delete p mi st) as [[r|e] st']; cbn [fst snd].
    + destruct H as (seg & id & a & _ & _ & _ & -> & Ht & _).
    right. right. split; [exact Hm|]. split; [reflexivity|]. split.
    * apply created_record_method. rewrite Hm. discriminate.
    * exists id. exact Ht.
    + destruct H as [-> _]. left. split; [reflexivity|].
      apply created_record_error.
Qed.

End Steps.

(** ** Histories *)

Section Histories.


Lemma created_records_cons path ev log :
  created_records path (ev :: log)
  = match created_record path ev with
    | Some d => [d]
    | None => []
    end ++ created_records path log.
Proof. reflexivity. Qed.


(** As long as no [DELETE] succeeded, the advert table holds the created
    records, in the order of their creation. *)
Lemma served_adverts log st :
  served log st ->
  (forall req resp,
     In (req, resp) log -> req_method req = DELETE -> status resp <> 200) ->
  map Advert_to_dict (advert_table st) = rev (created_records "/advert" log).
Proof.
  induction 1 as [|p req log st Hs IH]; intros Hnd.
  - reflexivity.
  - rewrite created_records_cons, rev_app_distr.
    assert (IH' : map Advert_to_dict (advert_table st)
                  = rev (created_records "/advert" log)).
    { apply IH. intros req' resp' Hin. apply (Hnd req' resp'). now right. }
    destruct (serve_advert_table p req st)
      as [[Ht Hc]|[(row & Ht & Hc)|(Hm & H200 & _)]].
  + rewrite Ht, Hc, IH'. simpl. now rewrite app_nil_r.
  + rewrite Ht, Hc, map_app, IH'. reflexivity.
  + exfalso. apply (Hnd req (fst (serve p req st))); auto. now left.
Qed.



Lemma collide_sym (x y : option string) :
  collide String.eqb x y = collide String.eqb y x.
Proof. destruct x, y; simpl; auto using String.eqb_sym. Qed.

Lemma users_collide_sym r r' : users_collide r r' = users_collide r' r.
Proof.
  unfold users_collide.
  now rewrite Z.eqb_sym, (collide_sym (User_username r')),
    (collide_sym (User_email r')).
Qed.

Lemma user_table_ok_snoc rows row :
  user_table_ok rows -> user_conflict row rows = false ->
  user_table_ok (rows ++ [row]).
Proof.
  unfold user_conflict.
  induction rows as [|a rows IH]; simpl; intros Hok Hc.
  - auto.
  - destruct Hok as [Ha Hok]. apply orb_false_iff in Hc as [Hra Hc].
    split; [|auto].
    unfold user_conflict in *. rewrite existsb_app, Ha. simpl.
    now rewrite users_collide_sym, Hra.
Qed.

(** The constraints of table [user] hold in every store the server can
    reach. *)
Lemma served_user_table_ok log st :
  served log st -> user_table_ok (user_table st).
Proof.
  induction 1 as [|p req log st Hs IH].
  - exact I.
  - destruct (serve_user_table p req st) as [[-> _]|(row & Hc & -> & _)].
    + exact IH.
    + now apply user_table_ok_snoc.
Qed.

Lemma user_table_ok_collide rows r r' :
  user_table_ok rows -> In r rows -> In r' rows ->
  users_collide r r' = true -> r = r'.
Proof.
  induction rows as [|a rows IH]; simpl; [tauto|].
  intros [Ha Hok] [<-|Hr] [<-|Hr'] Hc; auto.
  - exfalso. unfold user_conflict in Ha.
    assert (existsb (users_collide a) rows = true); [|congruence].
    apply existsb_exists. eauto.
  - exfalso. unfold user_conflict in Ha.
    assert (existsb (users_collide a) rows = true); [|congruence].
    apply existsb_exists. exists r. now rewrite users_collide_sym.
Qed.

(** In a reachable store, ids, usernames and emails identify the user. *)
Lemma served_users_unique log st r r' :
  served log st -> In r (user_table st) -> In r' (user_table st) ->
  User_id r = User_id r'
  \/ (exists u, User_username r = Some u /\ User_username r' = Some u)
  \/ (exists e, User_email r = Some e /\ User_email r' = Some e) ->
  r = r'.
Proof.
  intros Hs Hr Hr' H.
  apply (user_table_ok_collide (user_table st)); auto.
  - now apply (served_user_table_ok log).
  - unfold users_collide. destruct H as [H|[(u & Hu & Hu')|(e & He & He')]].
    + rewrite H, Z.eqb_refl. reflexivity.
    + rewrite Hu, Hu'. simpl. rewrite String.eqb_refl, orb_true_r.
      reflexivity.
    + rewrite He, He'. simpl. rewrite String.eqb_refl. apply orb_true_r.
Qed.

(** The log of [run], read backwards, is a history. *)
Lemma run_served p reqs : forall log st,
  served log st ->
  served (rev (fst (run p reqs st)) ++ log) (snd (run p reqs st)).
Proof.
  induction reqs as [|req reqs IH]; intros log st Hs; simpl.
  - exact Hs.
  - destruct (serve p req st) as [resp st'] eqn:E.
    specialize (IH ((req, resp) :: log) st').
    destruct (run p reqs st') as [log' st''] eqn:Er. simpl in *.
    rewrite <- app_assoc. simpl. apply IH.
    replace resp with (fst (serve p req st)) by now rewrite E.
    replace st' with (snd (serve p req st)) by now rewrite E.
    now apply served_step.
Qed.

End Histories.


Lemma sample_log_served : served sample_log store_with_bike.
Proof.
  apply (served_step sample_process post_bike _ store_with_alice).
  apply (served_step sample_process sign_up [] empty_store).
  apply served_start.
Defined.


(** C8: [GET /users] and [GET /adverts] answer with one array per stored
    row, holding the values of [id, username, email] and of
    [id, title, text, user_id, timestamp] in that order, without field
    names.  After a history in which N adverts were created and none
    deleted, the advert listing has N entries: the created records, each
    as the array of its field values. *)
Theorem C8_listings_are_positional_tuples :
  (forall p body t st,
     serve p (mkRequest GET "/users" body t) st
     = (mkResponse 200
          (Some (JList (map (fun r =>
             JList [ JInt (User_id r); opt_str (User_username r);
                     opt_str (User_email r) ]) (user_table st)))),
        st)) /\
  (forall p body t st,
     serve p (mkRequest GET "/adverts" body t) st
     = (mkResponse 200
          (Some (JList (map (fun r =>
             JList [ JInt (Advert_id r); opt_str (Advert_title r);
                     opt_str (Advert_text r); opt_int (Advert_user_id r);
                     opt_str (Advert_timestamp r) ]) (advert_table st)))),
        st)) /\
  (forall log st p body t,
          served log st ->
     (forall req resp,
        In (req, resp) log -> req_method req = DELETE -> status resp <> 200) ->
     exists entries,
       payload (fst (serve p (mkRequest GET "/adverts" body t) st))
       = Some (JList entries) /\
       List.length entries = List.length (created_records "/advert" log) /\
       Permutation entries (map record_tuple (created_records "/advert" log))).
Proof.
  split; [reflexivity|]. split; [reflexivity|].
  intros log st p body t Hs Hnd.
  exists (map advert_tuple (advert_table st)). split; [reflexivity|].
  assert (Heq : map advert_tuple (advert_table st)
                = map record_tuple (rev (created_records "/advert" log))).
  { rewrite <- (served_adverts log st Hs Hnd), map_map. reflexivity. }
  rewrite Heq. split.
  - now rewrite length_map, length_rev.
  - apply Permutation_map, Permutation_sym, Permutation_rev.
Qed.

Lemma C8_listings_are_positional_tuples_witness :
    (served sample_log store_with_bike /\
   (forall req resp,
      In (req, resp) sample_log -> req_method req = DELETE ->
      status resp <> 200)) /\
  exists entries,
    payload (fst (serve sample_process (mkRequest GET "/adverts" None evening)
                    store_with_bike))
    = Some (JList entries) /\
    List.length entries = List.length (created_records "/advert" sample_log) /\
    Permutation entries
      (map record_tuple (created_records "/advert" sample_log)).
Proof.
    assert (Hnd : forall req resp,
             In (req, resp) sample_log -> req_method req = DELETE ->
             status resp <> 200).
  { intros req resp [H|[H|[]]]; injection H as <- _; discriminate. }
  split.
  - split; [apply sample_log_served | exact Hnd].
  - apply (proj2 (proj2 C8_listings_are_positional_tuples) sample_log
             store_with_bike sample_process None evening sample_log_served Hnd).
Defined.

Example sample_advert_listing :
  payload (fst (serve sample_process (mkRequest GET "/adverts" None evening)
                  store_with_bike))
  = Some (JList [JList [JInt 1; JStr "Bike"; JStr "For sale"; JInt 1;
                        JStr "2024-01-01T00:00:00"]]).
Proof. vm_compute. reflexivity. Qed.

(** ** Duplicate sign-ups *)

Section Duplicates.


Lemma check_keys_tt cols d : is_ok (check_keys cols d) = true ->
  check_keys cols d = Ok tt.
Proof. destruct (check_keys cols d) as [[]|]; [reflexivity|discriminate]. Qed.





End Duplicates.




(** ** Bodies without a password *)



(** ** Errors at the handler boundary *)



(** ** The default of [Advert.timestamp] *)

(** An advert created without a [timestamp] field gets the string that
    was computed when the module was imported; the time of the request
    plays no part. *)
Lemma default_timestamp_is_import_time p d t st :
  dict_get "timestamp" d = None ->
  match AdvertView_post p (mkRequest POST "/advert" (Some (JDict d)) t) st with
  | (Ok resp, st') =>
      exists row,
        resp = json_response (JDict (Advert_to_dict row)) /\
        advert_table st' = advert_table st ++ [row] /\
        Advert_timestamp row = Some (isoformat (imported_at p))
  | (Raise _, _) => True
  end.
Proof.
  intros Hts.
  pose proof (AdvertView_post_cases p
                (mkRequest POST "/advert" (Some (JDict d)) t) st) as H.
  destruct (AdvertView_post p _ st) as [[resp|e] st']; [|exact I].
  destruct H as (d' & row & Hb & -> & _ & Ht & _ & Hstamp).
  cbn [req_body] in Hb. injection Hb as <-. rewrite Hts in Hstamp.
  exists row. repeat split; [exact Ht|]. now apply opt_str_JStr.
Qed.

(** C1, on the code: two adverts created by the same process at noon and
    in the evening both carry the timestamp of midnight, when the process
    was started, and not the time of their creation. *)
Theorem C1_adverts_share_import_timestamp :
  let first := serve sample_process
                 (mkRequest POST "/advert" (Some bike) noon) store_with_alice in
  let second := serve sample_process
                  (mkRequest POST "/advert" (Some bike) evening) (snd first) in
  status (fst first) = 200 /\ status (fst second) = 200 /\
  map Advert_timestamp (advert_table (snd second))
  = [Some "2024-01-01T00:00:00"; Some "2024-01-01T00:00:00"] /\
  isoformat (imported_at sample_process) = "2024-01-01T00:00:00" /\
  isoformat noon = "2024-01-01T12:00:00" /\
  isoformat evening = "2024-01-01T18:30:00.250000".
Proof. vm_compute. repeat split. Qed.

(** * Further properties of the handlers *)

(** ** Requests that only read *)

Section ReadOnly.

Lemma run_cons p req reqs st :
  snd (run p (req :: reqs) st) = snd (run p reqs (snd (serve p req st))).
Proof.
  simpl. destruct (serve p req st) as [resp st']. cbn [snd].
  destruct (run p reqs st') as [log st'']. reflexivity.
Qed.

Lemma serve_user_table_grows p req st :
  exists new, user_table (snd (serve p req st)) = user_table st ++ new.
Proof.
  destruct (serve_user_table p req st) as [[-> _]|(row & _ & -> & _)].
  - exists []. now rewrite app_nil_r.
  - now exists [row].
Qed.


End ReadOnly.

(** X1: a request whose method is neither POST nor DELETE leaves the
    store as it is, whatever its path and body. *)
Theorem X1_reads_leave_store : forall p req st,
  req_method req <> POST -> req_method req <> DELETE ->
  snd (serve p req st) = st.
Proof.
  intros p req st Hpost Hdel. unfold serve.
  destruct (resolve (req_method req) (req_path req)) as [h mi| |] eqn:R;
    try reflexivity.
  apply resolve_route in R as (pat & _ & Hroute).
  destruct h; destruct Hroute as [Hm _]; try congruence; cbn [run_handler].
  - reflexivity.
  - pose proof (UserView_get_cases mi st) as H.
    destruct (UserView_get mi st) as [[r|e] st']; destruct H as [-> _];
      reflexivity.
  - reflexivity.
  - pose proof (AdvertView_get_cases p mi st) as H.
    destruct (AdvertView_get p mi st) as [[r|e] st']; destruct H as [-> _];
      reflexivity.
  - reflexivity.
Qed.

Lemma X1_reads_leave_store_witness :
  (req_method (mkRequest GET "/users" None noon) <> POST /\
   req_method (mkRequest GET "/users" None noon) <> DELETE) /\
  snd (serve sample_process (mkRequest GET "/users" None noon) store_with_bike)
  = store_with_bike.
Proof.
  split.
  - split; discriminate.
  - apply (X1_reads_leave_store sample_process
             (mkRequest GET "/users" None noon) store_with_bike);
      discriminate.
Defined.

(** X2: no sequence of requests removes or alters a stored user: the
    user table afterwards is the table before, followed by the rows that
    were added. *)
Theorem X2_users_are_kept : forall p reqs st,
  exists new,
    user_table (snd (run p reqs st)) = user_table st ++ new.
Proof.
  intros p reqs. induction reqs as [|req reqs IH]; intros st.
  - exists []. simpl. now rewrite app_nil_r.
  - rewrite run_cons.
    destruct (IH (snd (serve p req st))) as [later ->].
    destruct (serve_user_table_grows p req st) as [first ->].
    exists (first ++ later). now rewrite app_assoc.
Qed.

(** ** A taken name stays taken *)

Section Taken.




End Taken.



(** ** Well-formed [POST /advert] *)

Section AdvertPost.

Lemma column_value_str_field k d :
  is_ok (column_value as_string k d) = true ->
  column_value as_string k d
  = Ok (match dict_get k d with
        | None => None
        | Some _ => Some (str_field k d)
        end).
Proof.
  unfold column_value, str_field.
  destruct (dict_get k d) as [[]|]; simpl; try discriminate; reflexivity.
Qed.

(** What [Advert.create] does with well-formed arguments. *)
Lemma Advert_create_ok p d st :
  Advert_kwargs_ok d = true ->
  Advert_create p d st =
    if advert_conflict (advert_row p d st) (advert_table st)
    then (Raise UniqueViolationError, after_nextval d st)
    else if advert_owner_ok (advert_row p d st) (user_table st)
    then (Ok (advert_row p d st),
          mkStore (user_table st) (advert_table st ++ [advert_row p d st])
            (user_id_seq st) (advert_id_seq (after_nextval d st)))
    else (Raise ForeignKeyViolationError, after_nextval d st).
Proof.
  intros Hok. unfold Advert_kwargs_ok in Hok.
  repeat (apply andb_true_iff in Hok as [Hok ?]).
  apply check_keys_tt in Hok.
  unfold Advert_create. unfold_M. rewrite Hok.
  rewrite !column_value_str_field by assumption.
  unfold column_value, advert_row, after_nextval, int_field, str_field.
  destruct (dict_get "id" d) as [[| |i| | |]|]; try discriminate;
    destruct (dict_get "user_id" d) as [[| |u| | |]|]; try discriminate;
    cbn [as_integer]; unfold nextval_advert, insert_advert;
    destruct (dict_get "title" d) as [[]|];
    destruct (dict_get "text" d) as [[]|];
    destruct (dict_get "timestamp" d) as [[]|];
    cbn [or_null advert_table user_table user_id_seq advert_id_seq];
    repeat break_if; reflexivity.
Qed.

Lemma serve_POST_advert p body t st :
  serve p (mkRequest POST "/advert" body t) st =
    match AdvertView_post p (mkRequest POST "/advert" body t) st with
    | (Ok r, st') => (r, st')
    | (Raise e, st') => (error_response e, st')
    end.
Proof. reflexivity. Qed.

Lemma after_nextval_tables d st :
  user_table (after_nextval d st) = user_table st /\
  advert_table (after_nextval d st) = advert_table st.
Proof. unfold after_nextval. destruct (dict_get "id" d); auto. Qed.

(** The three answers to a well-formed [POST /advert]. *)
Lemma serve_POST_advert_ok p d t st :
  Advert_kwargs_ok d = true ->
  serve p (mkRequest POST "/advert" (Some (JDict d)) t) st =
    if advert_conflict (advert_row p d st) (advert_table st)
    then (mkResponse 400 None, after_nextval d st)
    else if advert_owner_ok (advert_row p d st) (user_table st)
    then (json_response (JDict (Advert_to_dict (advert_row p d st))),
          mkStore (user_table st) (advert_table st ++ [advert_row p d st])
            (user_id_seq st) (advert_id_seq (after_nextval d st)))
    else (mkResponse 500 None, after_nextval d st).
Proof.
  intros Hok. rewrite serve_POST_advert.
  unfold AdvertView_post, request_json, create_instance. unfold_M.
  cbn [req_body call_kwargs Model_create Advert_Model].
  rewrite (Advert_create_ok p d st Hok).
  destruct (advert_conflict _ _); [reflexivity|].
  destruct (advert_owner_ok _ _); reflexivity.
Qed.

End AdvertPost.

Section AdvertFields.

Lemma str_field_submitted k d :
  is_ok (column_value as_string k d) = true ->
  opt_str (str_field k d) = submitted k d.
Proof.
  unfold column_value, str_field, submitted.
  destruct (dict_get k d) as [[]|]; simpl; try discriminate; reflexivity.
Qed.

Lemma advert_conflict_false_iff row rows :
  advert_conflict row rows = false <->
  ~ In (Advert_id row) (map Advert_id rows).
Proof.
  unfold advert_conflict. split.
  - intros H Hin. apply in_map_iff in Hin as (r & Hr & Hin).
    assert (existsb (fun r' => Z.eqb (Advert_id r') (Advert_id row)) rows
            = true); [|congruence].
    apply existsb_exists. exists r. split; [exact Hin|]. now apply Z.eqb_eq.
  - intros H. destruct (existsb _ rows) eqn:E; [|reflexivity].
    apply existsb_exists in E as (r & Hin & Heq). apply Z.eqb_eq in Heq.
    exfalso. apply H. apply in_map_iff. eauto.
Qed.


End AdvertFields.



(** X5: a well-formed [POST /advert] that succeeds answers with the
    fields of the body, null for those it leaves out; the client may
    choose the id and the timestamp itself, and only when it does not are
    the next sequence value and the default of the column used. *)
Theorem X5_advert_fields_as_submitted : forall p d t st,
  Advert_kwargs_ok d = true ->
  let post := serve p (mkRequest POST "/advert" (Some (JDict d)) t) st in
  status (fst post) = 200 ->
  payload (fst post) =
    Some (JDict
      [ ("id", JInt match dict_get "id" d with
                    | Some (JInt i) => i
                    | _ => advert_id_seq st
                    end);
        ("title", submitted "title" d);
        ("text", submitted "text" d);
        ("owner", submitted "user_id" d);
        ("timestamp", match dict_get "timestamp" d with
                      | Some v => v
                      | None => JStr (isoformat (imported_at p))
                      end) ]).
Proof.
  intros p d t st Hok post. subst post.
  rewrite (serve_POST_advert_ok p d t st Hok).
  destruct (advert_conflict _ _); [discriminate|].
  destruct (advert_owner_ok _ _); [|discriminate].
  intros _. cbn [fst payload json_response].
  unfold Advert_kwargs_ok in Hok.
  repeat (apply andb_true_iff in Hok as [Hok ?]).
  unfold Advert_to_dict, advert_row.
  cbn [Advert_id Advert_title Advert_text Advert_user_id Advert_timestamp].
  rewrite !str_field_submitted by assumption.
  do 3 f_equal.
  - unfold int_field. destruct (dict_get "id" d) as [[]|]; reflexivity.
  - do 3 f_equal.
    + unfold int_field, submitted.
      destruct (dict_get "user_id" d) as [[]|]; try discriminate; reflexivity.
    + unfold str_field, submitted, column_value in *.
      destruct (dict_get "timestamp" d) as [[]|]; try discriminate;
        reflexivity.
Qed.

Lemma X5_advert_fields_as_submitted_witness :
  let d := [("id", JInt 7); ("title", JStr "Bike");
            ("timestamp", JStr "yesterday")] in
  let post := serve sample_process
                (mkRequest POST "/advert" (Some (JDict d)) noon)
                store_with_alice in
  (Advert_kwargs_ok d = true /\ status (fst post) = 200) /\
  payload (fst post) =
    Some (JDict
      [ ("id", JInt match dict_get "id" d with
                    | Some (JInt i) => i
                    | _ => advert_id_seq store_with_alice
                    end);
        ("title", submitted "title" d);
        ("text", submitted "text" d);
        ("owner", submitted "user_id" d);
        ("timestamp", match dict_get "timestamp" d with
                      | Some v => v
                      | None => JStr (isoformat (imported_at sample_process))
                      end) ]).
Proof.
  split.
  - split; vm_compute; reflexivity.
  - apply (X5_advert_fields_as_submitted sample_process
             [("id", JInt 7); ("title", JStr "Bike");
              ("timestamp", JStr "yesterday")] noon store_with_alice);
      vm_compute; reflexivity.
Defined.

(** X6: a well-formed [POST /advert] whose id is free but whose [user_id]
    names no stored user fails on the foreign key; [create_instance]
    catches the uniqueness violation only, so the answer is the server's
    500 and no row is added. *)
Theorem X6_unknown_owner_is_500 : forall p d t st u,
  Advert_kwargs_ok d = true ->
  dict_get "user_id" d = Some (JInt u) ->
  ~ In u (map User_id (user_table st)) ->
  ~ In (Advert_id (advert_row p d st)) (map Advert_id (advert_table st)) ->
  let post := serve p (mkRequest POST "/advert" (Some (JDict d)) t) st in
  fst post = mkResponse 500 None /\
  advert_table (snd post) = advert_table st /\
  user_table (snd post) = user_table st.
Proof.
  intros p d t st u Hok Hu Hnew Hfree post. subst post.
  rewrite (serve_POST_advert_ok p d t st Hok).
  apply advert_conflict_false_iff in Hfree. rewrite Hfree.
  assert (Hown : advert_owner_ok (advert_row p d st) (user_table st) = false).
  { unfold advert_owner_ok, advert_row, int_field.
    cbn [Advert_user_id]. rewrite Hu.
    destruct (existsb _ (user_table st)) eqn:E; [|reflexivity].
    apply existsb_exists in E as (r & Hin & Heq). apply Z.eqb_eq in Heq.
    exfalso. apply Hnew. apply in_map_iff. eauto. }
  rewrite Hown. cbn [fst snd].
  destruct (after_nextval_tables d st) as [Hut Hat]. auto.
Qed.

Lemma X6_unknown_owner_is_500_witness :
  let d := [("title", JStr "Boat"); ("user_id", JInt 9)] in
  (Advert_kwargs_ok d = true /\
   dict_get "user_id" d = Some (JInt 9) /\
   ~ In 9 (map User_id (user_table store_with_alice)) /\
   ~ In (Advert_id (advert_row sample_process d store_with_alice))
        (map Advert_id (advert_table store_with_alice))) /\
  let post := serve sample_process
                (mkRequest POST "/advert" (Some (JDict d)) noon)
                store_with_alice in
  fst post = mkResponse 500 None /\
  advert_table (snd post) = advert_table store_with_alice /\
  user_table (snd post) = user_table store_with_alice.
Proof.
  assert (H9 : ~ In 9 (map User_id (user_table store_with_alice))).
  { vm_compute. intros [H|[]]. discriminate H. }
  assert (Hfree : ~ In (Advert_id (advert_row sample_process
                          [("title", JStr "Boat"); ("user_id", JInt 9)]
                          store_with_alice))
                       (map Advert_id (advert_table store_with_alice))).
  { vm_compute. intros []. }
  split.
  - repeat split; try assumption.
  - apply (X6_unknown_owner_is_500 sample_process
             [("title", JStr "Boat"); ("user_id", JInt 9)] noon
             store_with_alice 9); try assumption; reflexivity.
Defined.



(** ** More on [DELETE /advert/{id}] *)

Section Delete.

Lemma find_filter_other (id id' : Z) rows :
  id' <> id ->
  find (fun r => Z.eqb (Advert_id r) id')
    (filter (fun r => negb (Z.eqb (Advert_id r) id)) rows)
  = find (fun r => Z.eqb (Advert_id r) id') rows.
Proof.
  intros Hne. induction rows as [|r rows IH]; simpl; [reflexivity|].
  destruct (Z.eqb_spec (Advert_id r) id) as [Heq|Hneq]; simpl.
  - destruct (Z.eqb_spec (Advert_id r) id'); [congruence | exact IH].
  - destruct (Z.eqb (Advert_id r) id'); [reflexivity | exact IH].
Qed.


End Delete.





(** X10: a [DELETE /advert/{id}] does not touch the other adverts: a
    [GET /advert/{id'}] for any other id is answered after it as it was
    before it. *)
Theorem X10_delete_keeps_other_adverts :
  forall p p' seg seg' id id' body body' t t' st,
  digits_plus seg = true -> py_int seg = Ok id ->
  digits_plus seg' = true -> py_int seg' = Ok id' ->
  id' <> id ->
  let st' := snd (serve p (mkRequest DELETE ("/advert/" ++ seg) body t) st) in
  fst (serve p' (mkRequest GET ("/advert/" ++ seg') body' t') st')
  = fst (serve p' (mkRequest GET ("/advert/" ++ seg') body' t') st).
Proof.
  intros p p' seg seg' id id' body body' t t' st Hd Hi Hd' Hi' Hne st'.
  subst st'.
  rewrite (serve_DELETE_advert p seg id body t st Hd Hi).
  rewrite (serve_GET_advert p' seg' id' body' t' st Hd' Hi').
  destruct (find (fun r => Z.eqb (Advert_id r) id) (advert_table st));
    cbn [snd].
  - rewrite (serve_GET_advert p' seg' id' body' t' _ Hd' Hi').
    cbn [advert_table]. rewrite (find_filter_other id id' _ Hne).
    destruct (find _ (advert_table st)); reflexivity.
  - rewrite (serve_GET_advert p' seg' id' body' t' st Hd' Hi').
    reflexivity.
Qed.

Lemma X10_delete_keeps_other_adverts_witness :
  (digits_plus "1" = true /\ py_int "1" = Ok 1 /\
   digits_plus "2" = true /\ py_int "2" = Ok 2 /\ 2 <> 1) /\
  let st' := snd (serve sample_process
                    (mkRequest DELETE ("/advert/" ++ "1") None noon)
                    store_with_two_bikes) in
  fst (serve sample_process (mkRequest GET ("/advert/" ++ "2") None evening)
         st')
  = fst (serve sample_process (mkRequest GET ("/advert/" ++ "2") None evening)
           store_with_two_bikes).
Proof.
  split.
  - repeat split. discriminate.
  - apply (X10_delete_keeps_other_adverts sample_process sample_process
             "1" "2" 1 2 None None noon evening store_with_two_bikes);
      try reflexivity. discriminate.
Defined.

(** ** The route table, again *)

(** X11: no route is shadowed: a request whose method is that of a
    registered route and whose path matches its pattern is resolved to the
    handler of that very route, with the pattern's groups as
    [match_info]. *)
Theorem X11_no_route_is_shadowed : forall m pat h path mi,
  In (m, pat, h) routes ->
  match_pattern pat path = Some mi ->
  resolve m path = Matched h mi.
Proof.
  intros m pat h path mi Hin Hm. simpl in Hin.
  repeat (destruct Hin as [[= <- <- <-]|Hin]); try contradiction;
    try (apply match_pattern_Plain in Hm as [-> ->]; reflexivity);
    apply match_pattern_Digits in Hm as (seg & -> & Hd & ->).
  - now apply resolve_GET_user.
  - now apply resolve_GET_advert.
  - now apply resolve_DELETE_advert.
Qed.

Lemma X11_no_route_is_shadowed_witness :
  (In (DELETE, Digits "/advert/" "advert_id", h_AdvertView_delete) routes /\
   match_pattern (Digits "/advert/" "advert_id") "/advert/12"
   = Some [("advert_id", "12")]) /\
  resolve DELETE "/advert/12"
  = Matched h_AdvertView_delete [("advert_id", "12")].
Proof.
  assert (Hin : In (DELETE, Digits "/advert/" "advert_id", h_AdvertView_delete)
                  routes).
  { simpl. do 7 right. now left. }
  split.
  - split; [exact Hin | reflexivity].
  - apply (X11_no_route_is_shadowed DELETE (Digits "/advert/" "advert_id")
             h_AdvertView_delete "/advert/12" [("advert_id", "12")] Hin).
    reflexivity.
Defined.

(** ** Leading zeros *)

Section LeadingZeros.




End LeadingZeros.



(** ** The invariants of the store *)

Section Invariants.

Lemma Advert_create_row p kwargs st row st' :
  Advert_create p kwargs st = (Ok row, st') ->
  advert_conflict row (advert_table st) = false /\
  advert_owner_ok row (user_table st) = true /\
  advert_table st' = advert_table st ++ [row].
Proof.
  unfold Advert_create. unfold_M.
  destruct (check_keys Advert_columns kwargs); [|discriminate].
  destruct (column_value as_integer "id" kwargs) as [id|]; [|discriminate].
  destruct (column_value as_string "title" kwargs); [|discriminate].
  destruct (column_value as_string "text" kwargs); [|discriminate].
  destruct (column_value as_string "timestamp" kwargs); [|discriminate].
  destruct (column_value as_integer "user_id" kwargs); [|discriminate].
  destruct id as [[i|]|]; unfold nextval_advert, insert_advert; simpl;
    try discriminate;
    destruct (advert_conflict _ _) eqn:Ec; try discriminate;
    destruct (advert_owner_ok _ _) eqn:Eo; try discriminate;
    intros [= <- <-]; auto.
Qed.

(** The effect of one request on table [advert], with what the insert
    checked. *)
Lemma serve_advert_step p req st :
  advert_table (snd (serve p req st)) = advert_table st
  \/ (exists row,
       advert_conflict row (advert_table st) = false /\
       advert_owner_ok row (user_table st) = true /\
       advert_table (snd (serve p req st)) = advert_table st ++ [row])
  \/ (exists id,
       advert_table (snd (serve p req st))
       = filter (fun r => negb (Z.eqb (Advert_id r) id)) (advert_table st)).
Proof.
  unfold serve.
  destruct (resolve (req_method req) (req_path req)) as [h mi| |];
    cbn [snd]; auto.
  destruct h; cbn [run_handler]; auto.
  - pose proof (UserView_get_cases mi st) as H.
    destruct (UserView_get mi st) as [[r|e] st']; destruct H as [-> _]; auto.
  - pose proof (UserView_post_cases req st) as H.
    destruct (UserView_post req st) as [[r|e] st']; cbn [snd].
    + destruct H as (d & plain & row & _ & _ & _ & _ & _ & Ha & _). auto.
    + left. tauto.
  - pose proof (AdvertView_get_cases p mi st) as H.
    destruct (AdvertView_get p mi st) as [[r|e] st']; destruct H as [-> _];
      auto.
  - unfold AdvertView_post, request_json, create_instance. unfold_M.
    destruct (req_body req) as [[| | | | |d]|]; cbn [call_kwargs snd]; auto.
    cbn [Model_create Advert_Model].
    pose proof (Advert_create_cases p d st) as Hc.
    destruct (Advert_create p d st) as [[row|e] st'] eqn:E.
    + apply Advert_create_row in E as (Hconf & Hown & Ht).
      right. left. exists row. auto.
    + left. destruct (exn_eq_dec e UniqueViolationError); cbn [snd]; tauto.
  - pose proof (AdvertView_delete_cases p mi st) as H.
    destruct (AdvertView_delete p mi st) as [[r|e] st']; cbn [snd].
    + destruct H as (seg & id & a & _ & _ & _ & _ & Ht & _). eauto.
    + destruct H as [-> _]. auto.
Qed.

Lemma NoDup_snoc {A} (l : list A) x : NoDup l -> ~ In x l -> NoDup (l ++ [x]).
Proof.
  induction l as [|a l IH]; simpl; intros Hnd Hx.
  - constructor; [tauto | constructor].
  - inversion Hnd as [|? ? Ha Hl]; subst. constructor.
    + intros Hin. apply in_app_or in Hin as [Hin|[<-|[]]]; tauto.
    + apply IH; tauto.
Qed.

Lemma NoDup_map_filter {A B} (f : A -> B) (g : A -> bool) l :
  NoDup (map f l) -> NoDup (map f (filter g l)).
Proof.
  induction l as [|a l IH]; simpl; intros Hnd; [constructor|].
  inversion Hnd as [|? ? Ha Hl]; subst.
  destruct (g a); simpl; auto. constructor; auto.
  intros Hin. apply Ha. apply in_map_iff in Hin as (x & Hx & Hin).
  apply filter_In in Hin as [Hin _]. apply in_map_iff. eauto.
Qed.

Lemma advert_owner_ok_In row users u :
  advert_owner_ok row users = true -> Advert_user_id row = Some u ->
  In u (map User_id users).
Proof.
  unfold advert_owner_ok. intros H Hu. rewrite Hu in H.
  apply existsb_exists in H as (r & Hin & Heq). apply Z.eqb_eq in Heq.
  apply in_map_iff. eauto.
Qed.

(** In every store the server can reach, advert ids are not repeated and
    every owner is a stored user. *)
Lemma served_advert_table_ok log st : served log st -> advert_table_ok st.
Proof.
  induction 1 as [|p req log st Hs [IHn IHo]].
  - split; [constructor | intros a u []].
  - destruct (serve_user_table_grows p req st) as [new Hu].
    assert (Hkeep : forall u, In u (map User_id (user_table st)) ->
                              In u (map User_id
                                      (user_table (snd (serve p req st))))).
    { intros u Hin. rewrite Hu, map_app. apply in_or_app. now left. }
    destruct (serve_advert_step p req st)
      as [Ht|[(row & Hc & Ho & Ht)|(id & Ht)]];
      unfold advert_table_ok; rewrite Ht.
    + split; [exact IHn | eauto].
    + split.
      * rewrite map_app. apply NoDup_snoc; [exact IHn|].
        now apply advert_conflict_false_iff.
      * intros a u Hin Hown. apply Hkeep.
        apply in_app_or in Hin as [Hin|[<-|[]]]; [eauto|].
        now apply (advert_owner_ok_In row).
    + split; [now apply NoDup_map_filter|].
      intros a u Hin Hown. apply filter_In in Hin as [Hin _]. eauto.
Qed.



End Invariants.

(** X13: in every store the server can reach, two user rows that share
    an id, a username or an email are the same row, and no two adverts
    share an id. *)
Theorem X13_keys_stay_unique : forall log st,
  served log st ->
  (forall r r',
     In r (user_table st) -> In r' (user_table st) ->
     User_id r = User_id r'
     \/ (exists u, User_username r = Some u /\ User_username r' = Some u)
     \/ (exists e, User_email r = Some e /\ User_email r' = Some e) ->
     r = r') /\
  NoDup (map Advert_id (advert_table st)).
Proof.
  intros log st Hs. split.
  - intros r r'. now apply (served_users_unique log).
  - now destruct (served_advert_table_ok log st Hs).
Qed.

Lemma X13_keys_stay_unique_witness :
  served sample_log store_with_bike /\
  ((forall r r',
     In r (user_table store_with_bike) -> In r' (user_table store_with_bike) ->
     User_id r = User_id r'
     \/ (exists u, User_username r = Some u /\ User_username r' = Some u)
     \/ (exists e, User_email r = Some e /\ User_email r' = Some e) ->
     r = r') /\
   NoDup (map Advert_id (advert_table store_with_bike))).
Proof.
  split.
  - apply sample_log_served.
  - apply (X13_keys_stay_unique sample_log store_with_bike sample_log_served).
Defined.







(** ** The default timestamp fits its column *)

Section TimestampLength.

Lemma zfill_length w n acc :
  String.length (zfill w n acc) = (w + String.length acc)%nat.
Proof.
  revert n acc. induction w as [|w IH]; intros n acc; simpl; [reflexivity|].
  rewrite IH. simpl. lia.
Qed.

Lemma isoformat_length t :
  String.length (isoformat t)
  = if Z.eqb (microsecond t) 0 then 19%nat else 26%nat.
Proof.
  unfold isoformat.
  repeat (rewrite zfill_length; cbn [String.length]).
  destruct (Z.eqb (microsecond t) 0); cbn [String.length];
    rewrite ?zfill_length; reflexivity.
Qed.

End TimestampLength.

(** X17: an advert created without a [timestamp] field is stored with a
    timestamp of 19 characters, or of 26 when the server was started at a
    fraction of a second; either fits the 32 characters of the column. *)
Theorem X17_default_timestamp_fits : forall p d t st,
  dict_get "timestamp" d = None ->
  let post := serve p (mkRequest POST "/advert" (Some (JDict d)) t) st in
  status (fst post) = 200 ->
  exists row ts,
    advert_table (snd post) = advert_table st ++ [row] /\
    Advert_timestamp row = Some ts /\
    (String.length ts = 19%nat \/ String.length ts = 26%nat) /\
    (String.length ts <= 32)%nat.
Proof.
  intros p d t st Hts post. subst post. rewrite serve_POST_advert.
  pose proof (default_timestamp_is_import_time p d t st Hts) as H.
  destruct (AdvertView_post p _ st) as [[resp|e] st']; cbn [fst snd].
  - intros _. destruct H as (row & _ & Ht & Hstamp).
    exists row, (isoformat (imported_at p)).
    rewrite isoformat_length.
    destruct (Z.eqb (microsecond (imported_at p)) 0); repeat split; auto; lia.
  - intros Hs. now apply error_response_status in Hs.
Qed.

Lemma X17_default_timestamp_fits_witness :
  let post := serve sample_process (mkRequest POST "/advert" (Some bike) noon)
                store_with_alice in
  (dict_get "timestamp"
     [("title", JStr "Bike"); ("text", JStr "For sale"); ("user_id", JInt 1)]
   = None /\ status (fst post) = 200) /\
  exists row ts,
    advert_table (snd post) = advert_table store_with_alice ++ [row] /\
    Advert_timestamp row = Some ts /\
    (String.length ts = 19%nat \/ String.length ts = 26%nat) /\
    (String.length ts <= 32)%nat.
Proof.
  split.
  - split; vm_compute; reflexivity.
  - apply (X17_default_timestamp_fits sample_process
             [("title", JStr "Bike"); ("text", JStr "For sale");
              ("user_id", JInt 1)] noon store_with_alice);
      vm_compute; reflexivity.
Defined.

(** ** What the responses look like *)

Section Shapes.

Lemma user_tuples_shape rows :
  forallb (is_tuple 3) (map user_tuple rows) = true.
Proof. induction rows as [|r rows IH]; simpl; auto. Qed.

Lemma advert_tuples_shape rows :
  forallb (is_tuple 5) (map advert_tuple rows) = true.
Proof. induction rows as [|r rows IH]; simpl; auto. Qed.

Lemma handler_payload_shape p h mi req st :
  match run_handler p h mi req st with
  | (Ok resp, _) =>
      exists v, payload resp = Some v /\ payload_shape v = true
  | (Raise _, _) => True
  end.
Proof.
  destruct h; cbn [run_handler].
  - simpl. eauto.
  - unfold UserView_get, get_or_404. unfold_M. simpl.
    destruct (match_info_item "user_id" mi) as [seg|]; [|exact I].
    destruct (py_int seg); [|exact I].
    unfold User_get. destruct (find _ (user_table st)); simpl; eauto.
  - pose proof (UserView_post_cases req st) as H.
    destruct (UserView_post req st) as [[r|e] st']; [|exact I].
    destruct H as (d & plain & row & _ & _ & -> & _). simpl. eauto.
  - unfold Users_get. eexists. split; [reflexivity|].
    simpl. now rewrite user_tuples_shape.
  - unfold AdvertView_get, get_or_404. unfold_M. simpl.
    destruct (match_info_item "advert_id" mi) as [seg|]; [|exact I].
    destruct (py_int seg); [|exact I].
    unfold Advert_get. destruct (find _ (advert_table st)); simpl; eauto.
  - pose proof (AdvertView_post_cases p req st) as H.
    destruct (AdvertView_post p req st) as [[r|e] st']; [|exact I].
    destruct H as (d & row & _ & -> & _). simpl. eauto.
  - unfold Adverts_get. eexists. split; [reflexivity|].
    simpl. rewrite advert_tuples_shape. apply orb_true_r.
  - pose proof (AdvertView_delete_cases p mi st) as H.
    destruct (AdvertView_delete p mi st) as [[r|e] st']; [|exact I].
    destruct H as (seg & id & a & _ & _ & _ & -> & _). simpl. eauto.
Qed.

Lemma payload_shape_no_password v d :
  payload_shape v = true -> v = JDict d -> ~ In "password" (map fst d).
Proof.
  intros H ->. simpl in H.
  repeat (destruct (list_eq_dec string_dec (map fst d) _) as [->|_];
          [intros Hin; simpl in Hin;
           repeat (destruct Hin as [Hin|Hin]; [discriminate Hin|]);
           exact Hin|]).
  discriminate.
Qed.

End Shapes.

(** X18: every JSON document the server answers with is one of: the
    status record, a user record with the fields [id, username, email], an
    advert record with [id, title, text, owner, timestamp], the record of a
    deletion, a list of 3-element arrays or a list of 5-element arrays.  In
    particular no response has a [password] field. *)
Theorem X18_response_shapes : forall p req st v,
  payload (fst (serve p req st)) = Some v ->
  payload_shape v = true /\
  forall d, v = JDict d -> ~ In "password" (map fst d).
Proof.
  intros p req st v Hv.
  assert (Hs : payload_shape v = true).
  { revert Hv. unfold serve.
    destruct (resolve (req_method req) (req_path req)) as [h mi| |];
      try discriminate.
    pose proof (handler_payload_shape p h mi req st) as H.
    destruct (run_handler p h mi req st) as [[resp|e] st']; cbn [fst].
    - destruct H as (v' & -> & Hshape). now intros [= <-].
    - unfold error_response. destruct (status_of_exn e); discriminate. }
  split; [exact Hs|]. intros d. now apply payload_shape_no_password.
Qed.

Lemma X18_response_shapes_witness :
  let v := JDict [("id", JInt 1); ("username", JStr "alice");
                  ("email", JStr "a@x.com")] in
  payload (fst (serve sample_process (mkRequest GET "/user/1" None noon)
                  store_with_bike)) = Some v /\
  payload_shape v = true /\
  forall d, v = JDict d -> ~ In "password" (map fst d).
Proof.
  split.
  - vm_compute. reflexivity.
  - apply (X18_response_shapes sample_process
             (mkRequest GET "/user/1" None noon) store_with_bike).
    vm_compute. reflexivity.
Defined.

(** ** Bodies of the wrong shape *)



(** X20: a body that is JSON but not an object (a list, a string, a
    number, [null]) cannot be unpacked into keyword arguments: both create
    handlers raise [TypeError], the store is untouched and the server
    answers with 500. *)
Theorem X20_body_must_be_an_object : forall p v t st,
  (forall d, v <> JDict d) ->
  serve p (mkRequest POST "/user" (Some v) t) st = (mkResponse 500 None, st) /\
  serve p (mkRequest POST "/advert" (Some v) t) st = (mkResponse 500 None, st)
  /\
  run_handler p h_UserView_post [] (mkRequest POST "/user" (Some v) t) st
  = (Raise TypeError, st) /\
  run_handler p h_AdvertView_post [] (mkRequest POST "/advert" (Some v) t) st
  = (Raise TypeError, st).
Proof.
  intros p v t st Hv. rewrite serve_POST_user, serve_POST_advert.
  cbn [run_handler].
  unfold UserView_post, AdvertView_post, request_json. unfold_M.
  cbn [req_body].
  destruct v; try (repeat split; reflexivity). now destruct (Hv d).
Qed.

Lemma X20_body_must_be_an_object_witness :
  (forall d, JList [JInt 1] <> JDict d) /\
  (serve sample_process (mkRequest POST "/user" (Some (JList [JInt 1])) noon)
     empty_store = (mkResponse 500 None, empty_store) /\
   serve sample_process (mkRequest POST "/advert" (Some (JList [JInt 1])) noon)
     empty_store = (mkResponse 500 None, empty_store) /\
   run_handler sample_process h_UserView_post []
     (mkRequest POST "/user" (Some (JList [JInt 1])) noon) empty_store
   = (Raise TypeError, empty_store) /\
   run_handler sample_process h_AdvertView_post []
     (mkRequest POST "/advert" (Some (JList [JInt 1])) noon) empty_store
   = (Raise TypeError, empty_store)).
Proof.
  split.
  - discriminate.
  - apply (X20_body_must_be_an_object sample_process (JList [JInt 1]) noon
             empty_store). discriminate.
Defined.

(** X21: a create request that is not answered with 200 adds nothing:
    after a failed [POST /user] or [POST /advert] both tables hold the
    rows they held before. *)
Theorem X21_failed_create_adds_nothing : forall p path body t st,
  path = "/user" \/ path = "/advert" ->
  let post := serve p (mkRequest POST path body t) st in
  status (fst post) <> 200 ->
  user_table (snd post) = user_table st /\
  advert_table (snd post) = advert_table st.
Proof.
  intros p path body t st [-> | ->] post; subst post.
  - rewrite serve_POST_user.
    pose proof (UserView_post_cases (mkRequest POST "/user" body t) st) as H.
    destruct (UserView_post _ st) as [[resp|e] st']; cbn [fst snd].
    + destruct H as (d & plain & row & _ & _ & -> & _). now intros [].
    + intros _. tauto.
  - rewrite serve_POST_advert.
    pose proof (AdvertView_post_cases p (mkRequest POST "/advert" body t) st)
      as H.
    destruct (AdvertView_post p _ st) as [[resp|e] st']; cbn [fst snd].
    + destruct H as (d & row & _ & -> & _). now intros [].
    + intros _. tauto.
Qed.

Lemma X21_failed_create_adds_nothing_witness :
  let post := serve sample_process (mkRequest POST "/user" (Some alice) evening)
                store_with_bike in
  (("/user" = "/user" \/ "/user" = "/advert") /\ status (fst post) <> 200) /\
  user_table (snd post) = user_table store_with_bike /\
  advert_table (snd post) = advert_table store_with_bike.
Proof.
  split.
  - split; [now left | vm_compute; discriminate].
  - apply (X21_failed_create_adds_nothing sample_process "/user" (Some alice)
             evening store_with_bike); [now left | vm_compute; discriminate].
Defined.

(** ** [__repr__] *)

Section Repr.

Lemma string_length_app (a b : string) :
  String.length (a ++ b) = (String.length a + String.length b)%nat.
Proof. induction a as [|c a IH]; simpl; [reflexivity | now rewrite IH]. Qed.

Lemma string_app_inv_tail (a b c : string) :
  (a ++ c = b ++ c)%string -> a = b.
Proof.
  revert b. induction a as [|x a IH]; intros [|y b] H; simpl in H.
  - reflexivity.
  - apply (f_equal String.length) in H. simpl in H.
    rewrite string_length_app in H. lia.
  - apply (f_equal String.length) in H. simpl in H.
    rewrite string_length_app in H. lia.
  - injection H as -> H. f_equal. now apply IH.
Qed.

Lemma User_repr_inj r r' :
  User_repr r = User_repr r' ->
  format_field (User_username r) = format_field (User_username r').
Proof.
  unfold User_repr. simpl. intros H. injection H as H.
  now apply string_app_inv_tail in H.
Qed.

End Repr.

(** X22: [repr] tells the named users of a reachable store apart: two
    rows with usernames (not NULL) and the same [repr] are the same
    row. *)
Theorem X22_repr_identifies_named_users : forall log st r r' u u',
  served log st ->
  In r (user_table st) -> In r' (user_table st) ->
  User_username r = Some u -> User_username r' = Some u' ->
  User_repr r = User_repr r' ->
  r = r'.
Proof.
  intros log st r r' u u' Hs Hr Hr' Hu Hu' Hrepr.
  apply User_repr_inj in Hrepr. rewrite Hu, Hu' in Hrepr. simpl in Hrepr.
  subst u'. apply (served_users_unique log st); auto.
  right. left. eauto.
Qed.

Lemma X22_repr_identifies_named_users_witness :
  let r := mkUser 1 (Some "alice") (Some "a@x.com")
             (Some "ec6ef230f1828039ee794566b9c58adc") in
  (served sample_log store_with_bike /\
   In r (user_table store_with_bike) /\
   User_username r = Some "alice" /\ User_repr r = User_repr r) /\
  r = r.
Proof.
  assert (Hin : In (mkUser 1 (Some "alice") (Some "a@x.com")
                      (Some "ec6ef230f1828039ee794566b9c58adc"))
                   (user_table store_with_bike)).
  { vm_compute. now left. }
  split.
  - repeat split. apply sample_log_served. exact Hin.
  - apply (X22_repr_identifies_named_users sample_log store_with_bike _ _
             "alice" "alice" sample_log_served Hin Hin); reflexivity.
Defined.
